(** * customer_pricing: the price resolver of [spreadsheet.py]

    A shallow embedding of [compute_final_price] and of the part of [main]
    that feeds it, and the properties of the pricing specification that
    were checked against it.

    Numbers.  The function is written against Python's numeric protocol
    ([+], [-], [*], [/], [abs], [<], [round]); it runs unchanged on
    [float] and on [fractions.Fraction].  The embedding is therefore
    stated over a class [PyNumber] with two instances:
    - [Float64]: IEEE-754 binary64 with round-to-nearest-even, which is
      what the program computes with when it is run as shipped (the rate
      constants are float literals).  A Python [int] argument of magnitude
      at most 2^53 denotes the same value as the float it converts to.
    - [Fraction]: exact rationals kept in lowest terms, which is what the
      same code computes when it is handed [Fraction] arguments. *)

From Stdlib Require Import ZArith QArith Qabs Qround Lia Lqa List String Bool.
From Stdlib Require Import Floats.SpecFloat.
Import ListNotations.

Set Implicit Arguments.

(** ** Exceptions and results *)

Inductive exn : Type :=
| RuntimeError (msg : string)
| ValueError (msg : string)
| ZeroDivisionError
| UnboundLocalError
| KeyError.

(** The specification calls the resolver's failure a ConvergenceError;
    the program raises [RuntimeError("Convergence failed")]. *)
Definition ConvergenceError : exn := RuntimeError "Convergence failed".

(** The error of line 80, raised on an empty [MATERIALS]. *)
Definition EmptyMaterials : exn :=
  ValueError "⚠️  MATERIALS list is empty — add items, then rerun.".

Inductive result (A : Type) : Type :=
| Ok (a : A)
| Raise (e : exn).
Arguments Raise {A} e.

(** ** The numeric protocol the resolver relies on *)

Class PyNumber (num : Type) : Type := {
  zero : num;                             (* the literal [0] *)
  one : num;                              (* the literal [1] *)
  add : num -> num -> num;                (* [x + y] *)
  sub : num -> num -> num;                (* [x - y] *)
  mul : num -> num -> num;                (* [x * y] *)
  truediv : num -> num -> option num;     (* [x / y]; [None] is ZeroDivisionError *)
  absval : num -> num;                    (* [abs(x)] *)
  lt : num -> num -> bool;                (* [x < y] *)
  round2 : num -> num                     (* [round(x, 2)] *)
}.

(** Round half to even of [n / d] for [d > 0]: the rule of Python's
    [round] on exact values. *)
Definition round_half_even (n : Z) (d : Z) : Z :=
  let q := (n / d)%Z in
  let r := (n mod d)%Z in
  match (2 * r ?= d)%Z with
  | Lt => q
  | Gt => (q + 1)%Z
  | Eq => if Z.even q then q else (q + 1)%Z
  end.

(** ** binary64 floats *)

Module Float64.

Definition prec : Z := 53.
Definition emax : Z := 1024.

Definition float : Type := spec_float.

Definition fadd : float -> float -> float := SFadd prec emax.
Definition fsub : float -> float -> float := SFsub prec emax.
Definition fmul : float -> float -> float := SFmul prec emax.
Definition fdiv : float -> float -> float := SFdiv prec emax.

Definition is_zero (x : float) : bool :=
  match x with S754_zero _ => true | _ => false end.

Definition is_finite (x : float) : bool :=
  match x with S754_zero _ | S754_finite _ _ _ => true | _ => false end.

Definition is_nan (x : float) : bool :=
  match x with S754_nan => true | _ => false end.

(** [float.__truediv__]: a zero divisor raises instead of producing an
    infinity or a NaN. *)
Definition ftruediv (x y : float) : option float :=
  if is_zero y then None else Some (fdiv x y).

(** The float nearest to the integer [z] ([float(z)], exact when
    [|z| <= 2^53]). *)
Definition of_Z (z : Z) : float := binary_normalize prec emax z 0 false.

(** The float nearest to [n / d], for [d > 0]. *)
Definition of_ratio (n : Z) (d : positive) : float :=
  match n with
  | Z0 => S754_zero false
  | Zpos p => fdiv (S754_finite false p 0) (S754_finite false d 0)
  | Zneg p => fdiv (S754_finite true p 0) (S754_finite false d 0)
  end.

(** A decimal literal [m]e-[k], e.g. [0.0913] is [decimal 913 4]: the
    float nearest to [m / 10^k]. *)
Definition decimal (m : Z) (k : nat) : float :=
  of_ratio m (Pos.pow 10 (Pos.of_nat k)).

(** The exact rational value of a finite float (0 for the others). *)
Definition to_Q (x : float) : Q :=
  match x with
  | S754_finite s m e =>
      let v := match e with
               | Zneg k => Qmake (Zpos m) (Pos.pow 2 k)
               | _ => inject_Z (Zpos m * 2 ^ e)
               end in
      if s then Qopp v else v
  | _ => 0%Q
  end.

(** [float.__round__(x, 2)]: infinities and NaN round to themselves;
    a finite [x] goes through its correctly rounded two-place decimal
    representation (ties to even on the exact binary value), which is
    then read back as the nearest float.  The sign of [x] is kept, also
    on a zero result. *)
Definition hundredths (m : positive) (e : Z) : Z :=
  match e with
  | Zneg k => round_half_even (100 * Zpos m) (Zpos (Pos.pow 2 k))
  | _ => (100 * Zpos m * 2 ^ e)%Z
  end.

(** The float nearest to [h / 100] for [h >= 0], with the sign [s]. *)
Definition two_places (s : bool) (h : Z) : float :=
  match h with
  | Zpos n => fdiv (S754_finite s n 0) (S754_finite false 100 0)
  | _ => S754_zero s
  end.

Definition fround2 (x : float) : float :=
  match x with
  | S754_finite s m e => two_places s (hundredths m e)
  | _ => x
  end.

(** What [round(x, 2)] promises of its result [y]: a finite [x] is
    replaced by the float nearest to a two-place decimal [h / 100] within
    0.005 of [|x|]; the others are kept. *)
Definition two_place_rounding (x y : float) : Prop :=
  match x with
  | S754_finite s m e =>
      exists h : Z,
        (0 <= h)%Z /\
        (Qabs (inject_Z h / 100 - to_Q (S754_finite false m e)) <= 1 # 200)%Q /\
        y = two_places s h
  | _ => y = x
  end.

(** Equality up to the sign of zero: what [==] sees of finite floats. *)
Definition feq (x y : float) : Prop :=
  x = y \/ (is_zero x = true /\ is_zero y = true).

#[export] Instance float_number : PyNumber float := {
  zero := of_Z 0;
  one := of_Z 1;
  add := fadd;
  sub := fsub;
  mul := fmul;
  truediv := ftruediv;
  absval := SFabs;
  lt := SFltb;
  round2 := fround2
}.

End Float64.

(** ** Observable steps

    The run is observed through a log: each evaluation of the tolerance
    test of line 49, each line total written at line 84, the call of the
    resolver at line 88 and the hand-over to report assembly (lines 90 to
    141) leave one entry. *)

Section Program.

Context {num : Type} {NUM : PyNumber num}.

Inductive event : Type :=
| LineTotal (name : string) (value : num)
| ResolverCall (material_cost labor_cost : num)
| ToleranceCheck (new_price price : num) (holds : bool)
| Report (final_price : num) (rows : list (string * num)).

(** A computation yields a value or raises, and appends to the log. *)
Definition M (A : Type) : Type := (result A * list event)%type.

Definition ret {A} (a : A) : M A := (Ok a, []).
Definition raise {A} (e : exn) : M A := (Raise e, []).
Definition tell (ev : event) : M unit := (Ok tt, [ev]).
Definition bind {A B} (m : M A) (f : A -> M B) : M B :=
  match m with
  | (Ok a, l) => let (r, l') := f a in (r, l ++ l')
  | (Raise e, l) => (Raise e, l)
  end.

Notation "x <- m ;; k" := (bind m (fun x => k))
  (at level 61, m at next level, right associativity).
Notation "m ;; k" := (bind m (fun _ => k))
  (at level 61, right associativity).

(** *** The resolver's local variables *)

(** The six amounts assigned at lines 42 to 47, and again at lines 57
    to 62. *)
Record costs : Type := {
  profit : num;
  commission : num;
  total_labor : num;
  base_cost : num;
  overhead : num;
  total_cost : num
}.

(** The local variables of [compute_final_price] that are assigned in
    its body; the loop's own variables are unbound ([None]) until the
    first iteration has run. *)
Record locals : Type := {
  taxed_material : num;
  price : num;
  amounts : option costs;
  new_price : option num
}.

(** The breakdown dictionary, in insertion order. *)
Definition breakdown : Type := list (string * num).

Fixpoint get (key : string) (d : breakdown) : option num :=
  match d with
  | [] => None
  | (k, v) :: d' => if String.eqb k key then Some v else get key d'
  end.

Section compute_final_price.

Variables material_cost labor_cost : num.
Variables tax_rate overhead_rate profit_margin commission_rate : num.
Variable tol : num.

(** Lines 42 to 47 (and 57 to 62): the amounts that follow from a
    price. *)
Definition assign_costs (taxed price : num) : costs :=
  let profit := mul price profit_margin in
  let commission := mul profit commission_rate in
  let total_labor := add labor_cost commission in
  let base_cost := add taxed total_labor in
  let overhead := mul base_cost overhead_rate in
  let total_cost := add base_cost overhead in
  {| profit := profit; commission := commission;
     total_labor := total_labor; base_cost := base_cost;
     overhead := overhead; total_cost := total_cost |}.

(** Lines 42 to 48: the price that one iteration step makes of
    [price]; [None] when the division raises. *)
Definition next_price (taxed price : num) : option num :=
  truediv (total_cost (assign_costs taxed price)) (sub one profit_margin).

(** Lines 42 to 52: one pass through the loop body.  The flag says
    whether the pass ended in [break]. *)
Definition loop_body (st : locals) : M (locals * bool) :=
  let c := assign_costs (taxed_material st) (price st) in
  match next_price (taxed_material st) (price st) with
  | None => raise ZeroDivisionError
  | Some np =>
      let holds := lt (absval (sub np (price st))) tol in
      tell (ToleranceCheck np (price st) holds) ;;
      let st' := {| taxed_material := taxed_material st;
                    price := np;
                    amounts := Some c;
                    new_price := Some np |} in
      ret (st', holds)
  end.

(** Lines 41 to 54: [for _ in range(n): ... else: raise]. *)
Fixpoint for_range (n : nat) (st : locals) : M locals :=
  match n with
  | O => raise ConvergenceError
  | S n' =>
      r <- loop_body st ;;
      if snd r then ret (fst r) else for_range n' (fst r)
  end.

(** The locals a pass leaves behind when it started from [st] and
    computed [np]. *)
Definition after_pass (st : locals) (np : num) : locals :=
  {| taxed_material := taxed_material st;
     price := np;
     amounts := Some (assign_costs (taxed_material st) (price st));
     new_price := Some np |}.

(** What a normal exit of the loop means: the last pass started from
    some price [q], computed the accepted price from it, and found the
    two closer than [tol]. *)
Record accepted_from (q : num) (st' : locals) : Prop := {
  acc_step : next_price (taxed_material st') q = Some (price st');
  acc_close : lt (absval (sub (price st') q)) tol = true;
  acc_amounts : amounts st' = Some (assign_costs (taxed_material st') q);
  acc_new_price : new_price st' = Some (price st')
}.

(** Lines 39 and 40. *)
Definition initial_locals : locals :=
  let taxed := mul material_cost (add one tax_rate) in
  {| taxed_material := taxed;
     price := add taxed labor_cost;
     amounts := None;
     new_price := None |}.

(** Lines 57 to 62. *)
Definition final_amounts (st : locals) : locals :=
  {| taxed_material := taxed_material st;
     price := price st;
     amounts := Some (assign_costs (taxed_material st) (price st));
     new_price := new_price st |}.

(** Lines 64 to 74. *)
Definition make_breakdown (taxed price : num) (c : costs) : breakdown :=
  [ ("Material Raw",   round2 material_cost);
    ("Material Taxed", round2 taxed);
    ("Labor Base",     round2 labor_cost);
    ("Commission",     round2 (commission c));
    ("Labor Total",    round2 (total_labor c));
    ("Overhead",       round2 (overhead c));
    ("Total Cost",     round2 (total_cost c));
    ("Profit",         round2 (profit c));
    ("Final Price",    round2 price) ]%string.

(** The nine amounts of lines 65 to 73 before [round], in the order of
    the keys. *)
Definition unrounded (taxed price : num) (c : costs) : list num :=
  [ material_cost; taxed; labor_cost; commission c; total_labor c;
    overhead c; total_cost c; profit c; price ].

(** Lines 64 to 75, reading the local variables. *)
Definition return_value (st : locals) : M (num * breakdown) :=
  match amounts st with
  | None => raise UnboundLocalError
  | Some c =>
      ret (round2 (price st), make_breakdown (taxed_material st) (price st) c)
  end.

(** The number of passes of [range(max_iter)]. *)
Definition range_length (max_iter : Z) : nat := Z.to_nat max_iter.

Definition compute_final_price (max_iter : Z) : M (num * breakdown) :=
  st <- for_range (range_length max_iter) initial_locals ;;
  return_value (final_amounts st).

(** The variant the specification allows in its step 5: the
    recomputation of lines 57 to 62 is skipped and the amounts left by
    the last pass through the loop go into the breakdown. *)
Definition compute_final_price_retained (max_iter : Z) : M (num * breakdown) :=
  st <- for_range (range_length max_iter) initial_locals ;;
  return_value st.

(** *** The assignments of a call

    The same function once more, this time keeping a record of every
    assignment to a numeric local variable that it executes, in order,
    together with the tolerance tests of line 49. *)

Inductive step_event : Type :=
| Assigned (var : string) (value : num)
| Tested (new_price price : num) (holds : bool).

(** Lines 42 to 47, and 57 to 62. *)
Definition cost_assignments (c : costs) : list step_event :=
  [ Assigned "profit" (profit c);
    Assigned "commission" (commission c);
    Assigned "total_labor" (total_labor c);
    Assigned "base_cost" (base_cost c);
    Assigned "overhead" (overhead c);
    Assigned "total_cost" (total_cost c) ]%string.

(** Lines 41 to 54. *)
Fixpoint for_range_traced (n : nat) (st : locals) : result locals * list step_event :=
  match n with
  | O => (Raise ConvergenceError, [])
  | S n' =>
      let c := assign_costs (taxed_material st) (price st) in
      match next_price (taxed_material st) (price st) with
      | None => (Raise ZeroDivisionError, cost_assignments c)
      | Some np =>
          let holds := lt (absval (sub np (price st))) tol in
          let here :=
            cost_assignments c
            ++ [ Assigned "new_price" np;
                 Tested np (price st) holds;
                 Assigned "price" np ]%string in
          if holds then (Ok (after_pass st np), here)
          else let (r, l) := for_range_traced n' (after_pass st np) in
               (r, here ++ l)
      end
  end.

(** Lines 39 to 75. *)
Definition compute_final_price_traced (max_iter : Z)
  : result (num * breakdown) * list step_event :=
  let taxed := mul material_cost (add one tax_rate) in
  let guess := add taxed labor_cost in
  let head := [ Assigned "taxed_material" taxed; Assigned "price" guess ]%string in
  let st0 := {| taxed_material := taxed; price := guess;
                amounts := None; new_price := None |} in
  match for_range_traced (range_length max_iter) st0 with
  | (Ok st, l) =>
      let c := assign_costs (taxed_material st) (price st) in
      (Ok (round2 (price st), make_breakdown (taxed_material st) (price st) c),
       head ++ l ++ cost_assignments c)
  | (Raise e, l) => (Raise e, head ++ l)
  end.

(** The tolerance tests of a record of assignments and tests. *)
Definition tests_of (trace : list step_event) : list event :=
  flat_map (fun ev => match ev with
                      | Tested np x holds => [ToleranceCheck np x holds]
                      | Assigned _ _ => []
                      end) trace.

End compute_final_price.

(** *** The driver *)

(** An entry of [MATERIALS]: a dictionary with the keys [name], [qty]
    and [unit_cost], to which line 84 adds [line_total]. *)
Record item : Type := {
  name : string;
  qty : num;
  unit_cost : num;
  line_total : option num
}.

Section main.

Variables LABOR_HOURS LABOR_RATE : num.
Variables TAX_RATE OVERHEAD_RATE PROFIT_MARGIN COMMISSION_RATE : num.
Variable TOL : num.
Variable MAX_ITER : Z.

(** Lines 83 and 84: every entry receives its line total, in place. *)
Fixpoint line_totals (items : list item) : M (list item) :=
  match items with
  | [] => ret []
  | itm :: rest =>
      let v := mul (qty itm) (unit_cost itm) in
      tell (LineTotal (name itm) v) ;;
      rest' <- line_totals rest ;;
      ret ({| name := name itm; qty := qty itm;
              unit_cost := unit_cost itm; line_total := Some v |} :: rest')
  end.

(** Line 86: [sum] starts from the integer 0 and adds from the left.
    That is what it does on ints, as shipped, and on fractions; on floats
    CPython 3.12 and later also compensates the rounding errors of the
    partial sums, which is left out here. *)
Fixpoint sum_from (acc : num) (items : list item) : M num :=
  match items with
  | [] => ret acc
  | itm :: rest =>
      match line_total itm with
      | None => raise KeyError
      | Some v => sum_from (add acc v) rest
      end
  end.

(** Lines 79 to 88, followed by the hand-over of the result to the
    console preview and the PDF of lines 90 to 141.  The value is the
    content of the global [MATERIALS] after the run. *)
Definition main (MATERIALS : list item) : M (list item) :=
  match MATERIALS with
  | [] => raise EmptyMaterials
  | _ :: _ =>
      items <- line_totals MATERIALS ;;
      raw_total <- sum_from zero items ;;
      let labor_base := mul LABOR_HOURS LABOR_RATE in
      tell (ResolverCall raw_total labor_base) ;;
      r <- compute_final_price raw_total labor_base
             TAX_RATE OVERHEAD_RATE PROFIT_MARGIN COMMISSION_RATE
             TOL MAX_ITER ;;
      tell (Report (fst r) (snd r)) ;;
      ret items
  end.

End main.

End Program.

(** ** Exact rationals: [fractions.Fraction] *)

Module Fraction.

(** A [Fraction] is a rational in lowest terms; every operation
    normalises its result. *)
Definition fraction : Type := Q.

Definition qadd (x y : fraction) : fraction := Qred (x + y).
Definition qsub (x y : fraction) : fraction := Qred (x - y).
Definition qmul (x y : fraction) : fraction := Qred (x * y).
Definition qtruediv (x y : fraction) : option fraction :=
  if Qeq_bool y 0 then None else Some (Qred (x / y)).
Definition qabs (x : fraction) : fraction := Qred (Qabs x).
Definition qlt (x y : fraction) : bool := negb (Qle_bool y x).

(** [Fraction.__round__(x, 2)] is [Fraction(round(x * 100), 100)], and
    [round] of a fraction goes to the nearest integer, ties to even. *)
Definition qround2 (x : fraction) : fraction :=
  Qred (Qmake (round_half_even (100 * Qnum x) (Zpos (Qden x))) 100).

(** [r] to the power [m]. *)
Fixpoint qpow (r : Q) (m : nat) : Q :=
  match m with
  | O => 1
  | S m' => r * qpow r m'
  end.

(** On fractions the step of lines 42 to 48 is the affine map
    [price |-> offset + factor * price]; [move] is the distance it moves
    a price. *)
Definition factor (overhead_rate profit_margin commission_rate : fraction) : Q :=
  profit_margin * commission_rate * (1 + overhead_rate) / (1 - profit_margin).

Definition offset (labor_cost overhead_rate profit_margin taxed : fraction) : Q :=
  (taxed + labor_cost) * (1 + overhead_rate) / (1 - profit_margin).

Definition move (labor_cost overhead_rate profit_margin commission_rate taxed x : fraction) : Q :=
  offset labor_cost overhead_rate profit_margin taxed
  + factor overhead_rate profit_margin commission_rate * x - x.

#[export] Instance fraction_number : PyNumber fraction := {
  zero := 0%Q;
  one := 1%Q;
  add := qadd;
  sub := qsub;
  mul := qmul;
  truediv := qtruediv;
  absval := qabs;
  lt := qlt;
  round2 := qround2
}.

End Fraction.

(** ** The configuration as shipped (lines 15 to 28 and 37) *)

Module Shipped.
Import Float64.

Definition MATERIALS : list (item (num := float)) :=
  [ {| name := "4/0 THHN Copper Roll"; qty := of_Z 1;
       unit_cost := of_Z 1200; line_total := None |};
    {| name := "2 in. Rigid Conduit 10 ft"; qty := of_Z 50;
       unit_cost := of_Z 40; line_total := None |} ]%string.

Definition LABOR_HOURS : float := of_Z 20.
Definition LABOR_RATE : float := decimal 800 1.

Definition TAX_RATE : float := decimal 913 4.
Definition OVERHEAD_RATE : float := decimal 6666 4.
Definition PROFIT_MARGIN : float := decimal 23 2.
Definition COMMISSION_RATE : float := decimal 20 2.

(** The defaults [tol=1e-6] and [max_iter=1000]. *)
Definition TOL : float := decimal 1 6.
Definition MAX_ITER : Z := 1000.

(** [compute_final_price(material_cost, labor_cost)] with every keyword
    argument at its default. *)
Definition compute_final_price_default (material_cost labor_cost : float)
  : M (float * breakdown) :=
  compute_final_price material_cost labor_cost
    TAX_RATE OVERHEAD_RATE PROFIT_MARGIN COMMISSION_RATE TOL MAX_ITER.

Definition main_shipped (materials : list item) : M (list item) :=
  main LABOR_HOURS LABOR_RATE
    TAX_RATE OVERHEAD_RATE PROFIT_MARGIN COMMISSION_RATE TOL MAX_ITER
    materials.

End Shipped.

Section FloatRuns.

Import Float64 Shipped.

(** A pass of the loop on floats in which neither the commission nor the
    new price overflows or is NaN (and the division does not raise). *)
Definition pass_is_finite
    (labor_cost overhead_rate profit_margin commission_rate taxed price : float)
  : bool :=
  is_finite
    (commission (assign_costs labor_cost overhead_rate profit_margin commission_rate
                   taxed price)) &&
  match next_price labor_cost overhead_rate profit_margin commission_rate taxed price with
  | Some np => is_finite np
  | None => false
  end.

(** The value scenario A returns. *)
Definition scenario_A_outcome : M (float * breakdown) :=
  Eval vm_compute in compute_final_price_default (of_Z 3200) (of_Z 1600).

End FloatRuns.

(** * Properties of the resolver, for every numeric type *)

Section ResolverFacts.

Context {num : Type} {NUM : PyNumber num}.

Variables material_cost labor_cost : num.
Variables tax_rate overhead_rate profit_margin commission_rate : num.
Variable tol : num.

Local Abbreviation costs_of := (assign_costs labor_cost overhead_rate profit_margin commission_rate).
Local Abbreviation step := (next_price labor_cost overhead_rate profit_margin commission_rate).
Local Abbreviation body := (loop_body labor_cost overhead_rate profit_margin commission_rate tol).
Local Abbreviation loop := (for_range labor_cost overhead_rate profit_margin commission_rate tol).
Local Abbreviation start := (initial_locals material_cost labor_cost tax_rate).
Local Abbreviation after := (after_pass labor_cost overhead_rate profit_margin commission_rate).
Local Abbreviation accepted := (accepted_from labor_cost overhead_rate profit_margin commission_rate tol).

Lemma loop_body_raise st :
  step (taxed_material st) (price st) = None ->
  body st = (Raise ZeroDivisionError, []).
Proof. intros E. unfold loop_body. now rewrite E. Qed.

Lemma loop_body_ok st np :
  step (taxed_material st) (price st) = Some np ->
  body st =
    (Ok (after st np, lt (absval (sub np (price st))) tol),
     [ToleranceCheck np (price st) (lt (absval (sub np (price st))) tol)]).
Proof. intros E. unfold loop_body. now rewrite E. Qed.

(** One unfolding of the loop. *)
Lemma for_range_S n st :
  loop (S n) st =
    match step (taxed_material st) (price st) with
    | None => (Raise ZeroDivisionError, [])
    | Some np =>
        let holds := lt (absval (sub np (price st))) tol in
        if holds
        then (Ok (after st np), [ToleranceCheck np (price st) true])
        else let (r, l) := loop n (after st np) in
             (r, ToleranceCheck np (price st) false :: l)
    end.
Proof.
  cbn [for_range]. destruct (step _ _) as [np|] eqn:E.
  - rewrite (loop_body_ok _ E). cbn.
    destruct (lt _ _); cbn; [reflexivity|].
    now destruct (loop n _).
  - now rewrite (loop_body_raise _ E).
Qed.

(** The loop evaluates the tolerance test at most once per pass of
    [range(n)], whatever the outcome. *)
Lemma for_range_log_length n :
  forall st, (List.length (snd (loop n st)) <= n)%nat.
Proof.
  induction n as [|n IH]; intros st; [cbn; lia|].
  rewrite for_range_S. destruct (step _ _); cbn; [|lia].
  destruct (lt _ _); cbn; [lia|].
  specialize (IH (after st n0)). destruct (loop n _). cbn in *. lia.
Qed.

Lemma for_range_ok n :
  forall st st' log,
    loop n st = (Ok st', log) ->
    taxed_material st' = taxed_material st /\
    exists q log', accepted q st' /\
      log = log' ++ [ToleranceCheck (price st') q true].
Proof.
  induction n as [|n IH]; intros st st' log; [discriminate|].
  rewrite for_range_S. destruct (step _ _) as [np|] eqn:E; [|discriminate].
  cbn. destruct (lt _ _) eqn:L.
  - intros [= <- <-]. split; [reflexivity|].
    exists (price st), []. split; [|reflexivity].
    constructor; cbn; auto.
  - destruct (loop n _) as [r l] eqn:R. intros [= -> <-].
    destruct (IH _ _ _ R) as (T & q & log' & A & ->).
    split; [exact T|].
    exists q, (ToleranceCheck np (price st) false :: log'). split; auto.
Qed.

(** The loop raises nothing but the two errors of lines 48 and 54. *)
Lemma for_range_raise n :
  forall st e log,
    loop n st = (Raise e, log) ->
    e = ConvergenceError \/ e = ZeroDivisionError.
Proof.
  induction n as [|n IH]; intros st e log.
  - intros [= <- _]. now left.
  - rewrite for_range_S. destruct (step _ _) as [np|]; cbn.
    + destruct (lt _ _); [discriminate|].
      destruct (loop n _) as [r l] eqn:R. intros [= -> _]. eauto.
    + intros [= <- _]. now right.
Qed.

(** [compute_final_price] in terms of its loop. *)
Lemma compute_final_price_unfold max_iter :
  compute_final_price material_cost labor_cost tax_rate overhead_rate
    profit_margin commission_rate tol max_iter =
  match loop (range_length max_iter) start with
  | (Ok st, log) =>
      (Ok (round2 (price st),
           make_breakdown material_cost labor_cost (taxed_material st) (price st)
             (costs_of (taxed_material st) (price st))), log)
  | (Raise e, log) => (Raise e, log)
  end.
Proof.
  unfold compute_final_price, bind.
  destruct (loop _ _) as [[st|e] log]; [|reflexivity].
  cbn. now rewrite app_nil_r.
Qed.

Lemma compute_final_price_retained_unfold max_iter :
  compute_final_price_retained material_cost labor_cost tax_rate overhead_rate
    profit_margin commission_rate tol max_iter =
  match loop (range_length max_iter) start with
  | (Ok st, log) =>
      match amounts st with
      | Some c =>
          (Ok (round2 (price st),
               make_breakdown material_cost labor_cost (taxed_material st) (price st) c),
           log)
      | None => (Raise UnboundLocalError, log)
      end
  | (Raise e, log) => (Raise e, log)
  end.
Proof.
  unfold compute_final_price_retained, bind, return_value.
  destruct (loop _ _) as [[st|e] log]; [|reflexivity].
  destruct (amounts st); cbn; now rewrite app_nil_r.
Qed.

(** The log of a call is the log of its loop. *)
Lemma compute_final_price_log max_iter :
  snd (compute_final_price material_cost labor_cost tax_rate overhead_rate
         profit_margin commission_rate tol max_iter)
  = snd (loop (range_length max_iter) start).
Proof.
  rewrite compute_final_price_unfold.
  now destruct (loop _ _) as [[st|e] log].
Qed.

(** What a successful call returns, in terms of the locals at the exit
    of the loop. *)
Lemma compute_final_price_ok max_iter fp bd log :
  compute_final_price material_cost labor_cost tax_rate overhead_rate
    profit_margin commission_rate tol max_iter = (Ok (fp, bd), log) ->
  exists st q,
    loop (range_length max_iter) start = (Ok st, log) /\
    accepted q st /\
    fp = round2 (price st) /\
    map snd bd
    = map round2 (unrounded material_cost labor_cost (taxed_material st) (price st)
                    (costs_of (taxed_material st) (price st))).
Proof.
  rewrite compute_final_price_unfold.
  destruct (loop _ _) as [[st|e] l] eqn:R; [|discriminate].
  intros [= <- <- <-].
  destruct (for_range_ok _ _ R) as (_ & q & log' & A & _).
  exists st, q. auto.
Qed.

(** The part of C1 that holds for every numeric type: the call makes at
    most [max_iter] tolerance tests, and when it returns, the price it
    rounds was accepted by the test of line 49 against the price the
    last pass started from. *)
Lemma resolver_terminates max_iter :
  (List.length
     (snd (compute_final_price material_cost labor_cost tax_rate overhead_rate
             profit_margin commission_rate tol max_iter))
   <= range_length max_iter)%nat /\
  forall fp bd log,
    compute_final_price material_cost labor_cost tax_rate overhead_rate
      profit_margin commission_rate tol max_iter = (Ok (fp, bd), log) ->
    exists p q,
      step (mul material_cost (add one tax_rate)) q = Some p /\
      lt (absval (sub p q)) tol = true /\
      fp = round2 p.
Proof.
  split.
  - rewrite compute_final_price_log. apply for_range_log_length.
  - intros fp bd log E.
    destruct (compute_final_price_ok _ E) as (st & q & R & [A1 A2 _ _] & -> & _).
    destruct (for_range_ok _ _ R) as (T & _).
    exists (price st), q. rewrite T in A1. auto.
Qed.

(** ** C4 *)

(** C4: with [max_iter = 0] the call raises the ConvergenceError for
    every input, and its log is empty: the comparison
    [abs(new_price - price) < tol] of line 49 has not been evaluated. *)
Theorem C4_no_iterations_fail :
  compute_final_price material_cost labor_cost tax_rate overhead_rate
    profit_margin commission_rate tol 0
  = (Raise ConvergenceError, []).
Proof. reflexivity. Qed.

(** The log does record the comparison as soon as one pass is made. *)
Lemma one_iteration_logs_check np :
  step (taxed_material start) (price start) = Some np ->
  exists holds rest,
    snd (compute_final_price material_cost labor_cost tax_rate overhead_rate
           profit_margin commission_rate tol 1)
    = ToleranceCheck np (price start) holds :: rest.
Proof.
  intros E. rewrite compute_final_price_unfold.
  change (range_length 1) with 1%nat. rewrite for_range_S, E. cbn.
  destruct (lt _ _); cbn; eauto.
Qed.

(** ** C9 *)

(** C9: on success the first component of the returned pair and the
    entry of the breakdown under "Final Price" are the same number, the
    accepted price rounded to two places. *)
Theorem C9_final_price_entry (max_iter : Z) fp bd log :
  compute_final_price material_cost labor_cost tax_rate overhead_rate
    profit_margin commission_rate tol max_iter = (Ok (fp, bd), log) ->
  get "Final Price" bd = Some fp /\
  exists st, loop (range_length max_iter) start = (Ok st, log) /\
             fp = round2 (price st).
Proof.
  rewrite compute_final_price_unfold.
  destruct (loop _ _) as [[st|e] l]; [|discriminate].
  intros [= <- <- <-]. split; [reflexivity|]. now exists st.
Qed.

(** ** C2 *)

(** C2, as amended: the variant that keeps the amounts of the last pass
    raises when the program raises and succeeds when it succeeds, with
    the same final price and the same log.  The two breakdowns are built
    alike, from the accepted price [p] and the price [q] that the last
    pass started from ([p] is the step of [q] and within [tol] of it),
    but the program derives commission, labor total, overhead, total
    cost and profit from [p] where the variant has them from [q]; the
    breakdowns are the same when [p = q]. *)
Theorem C2_retained_amounts (max_iter : Z) :
  match compute_final_price material_cost labor_cost tax_rate overhead_rate
          profit_margin commission_rate tol max_iter,
        compute_final_price_retained material_cost labor_cost tax_rate overhead_rate
          profit_margin commission_rate tol max_iter
  with
  | (Ok (fp, bd), log), (Ok (fp', bd'), log') =>
      fp = fp' /\ log = log' /\
      exists taxed q p,
        step taxed q = Some p /\
        lt (absval (sub p q)) tol = true /\
        bd = make_breakdown material_cost labor_cost taxed p (costs_of taxed p) /\
        bd' = make_breakdown material_cost labor_cost taxed p (costs_of taxed q) /\
        (p = q -> bd = bd')
  | (Raise e, log), (Raise e', log') => e = e' /\ log = log'
  | _, _ => False
  end.
Proof.
  rewrite compute_final_price_unfold, compute_final_price_retained_unfold.
  destruct (loop _ _) as [[st|e] log] eqn:R; [|auto].
  destruct (for_range_ok _ _ R) as (_ & q & log' & [A1 A2 A3 A4] & _).
  rewrite A3. split; [reflexivity|]. split; [reflexivity|].
  exists (taxed_material st), q, (price st).
  repeat split; auto. now intros ->.
Qed.

End ResolverFacts.

(** * The driver *)

Section DriverFacts.

Context {num : Type} {NUM : PyNumber num}.

Variables LABOR_HOURS LABOR_RATE : num.
Variables TAX_RATE OVERHEAD_RATE PROFIT_MARGIN COMMISSION_RATE : num.
Variable TOL : num.
Variable MAX_ITER : Z.

Local Abbreviation run_main :=
  (main LABOR_HOURS LABOR_RATE TAX_RATE OVERHEAD_RATE PROFIT_MARGIN
        COMMISSION_RATE TOL MAX_ITER).

(** ** C5 *)

(** C5: on an empty material list [main] raises the error of line 80
    with an empty log: no line total has been computed and the resolver
    has not been called. *)
Theorem C5_empty_materials_abort :
  run_main [] = (Raise EmptyMaterials, []).
Proof. reflexivity. Qed.

(** On any other list the log opens with the line total of the first
    entry, so the empty log above does mean that none was computed. *)
Lemma main_nonempty_logs_line_total itm rest :
  exists log,
    snd (run_main (itm :: rest))
    = LineTotal (name itm) (mul (qty itm) (unit_cost itm)) :: log.
Proof.
  unfold main. cbn [line_totals]. unfold bind at 1. unfold bind at 1.
  cbn [tell]. destruct (line_totals rest) as [[rest'|e] l1].
  - cbn. destruct (sum_from _ _) as [[raw|e] l2]; cbn.
    + destruct (compute_final_price _ _ _ _ _ _ _ _) as [[r|e] l3]; cbn; eauto.
    + eauto.
  - cbn. eauto.
Qed.

End DriverFacts.

(** * The program as shipped: binary64 *)

Section FloatFacts.

Import Float64 Shipped.

(** Close a conjunction of closed equations by evaluation. *)
Ltac conj_eval :=
  lazymatch goal with
  | |- _ /\ _ => split; [vm_compute; reflexivity | conj_eval]
  | |- _ => vm_compute; reflexivity
  end.

(** ** C6 *)

(** C6: with a material cost and a labor cost equal to zero (of either
    sign) and every other argument at its default, the call succeeds and
    the final price it returns is zero. *)
Theorem C6_zero_costs_zero_price (material_cost labor_cost : float) :
  is_zero material_cost = true ->
  is_zero labor_cost = true ->
  exists fp bd log,
    compute_final_price_default material_cost labor_cost = (Ok (fp, bd), log) /\
    is_zero fp = true /\
    SFeqb fp (of_Z 0) = true.
Proof.
  destruct material_cost as [s1| | |], labor_cost as [s2| | |];
    try discriminate; intros _ _.
  destruct s1, s2; do 3 eexists; conj_eval.
Qed.

Lemma C6_zero_costs_zero_price_witness :
  exists fp bd log,
    compute_final_price_default (of_Z 0) (of_Z 0) = (Ok (fp, bd), log) /\
    is_zero fp = true /\
    SFeqb fp (of_Z 0) = true.
Proof.
  apply (C6_zero_costs_zero_price (of_Z 0) (of_Z 0)); reflexivity.
Defined.

(** ** C3: scenario A *)

(** The amounts of scenario A as [main] hands them to the resolver. *)
Lemma scenario_A_resolver_call :
  In (ResolverCall (of_Z 3200) (of_Z 1600)) (snd (main_shipped MATERIALS)).
Proof. vm_compute. do 2 right. left. reflexivity. Qed.

(** The claim read on the value the call returns: the final price of
    scenario A is 12240.23, the total cost recomputed from it and divided
    by [1 - 0.23] is off by more than the tolerance 1e-6, and so is the
    quotient of the breakdown's own "Total Cost". *)
Lemma C3_counterexample :
  exists fp bd log np tc q,
    compute_final_price_default (of_Z 3200) (of_Z 1600) = (Ok (fp, bd), log) /\
    next_price (of_Z 1600) OVERHEAD_RATE PROFIT_MARGIN COMMISSION_RATE
      (mul (of_Z 3200) (add one TAX_RATE)) fp = Some np /\
    lt (absval (sub np fp)) TOL = false /\
    get "Total Cost" bd = Some tc /\
    truediv tc (sub one PROFIT_MARGIN) = Some q /\
    lt (absval (sub q fp)) TOL = false.
Proof. do 6 eexists. conj_eval. Qed.

(** C3, as amended: on scenario A the loop accepts a price on its 11th
    pass.  That price, before rounding, reproduces itself under one more
    step to within the tolerance 1e-6; the call returns it rounded to
    12240.23, which one more step changes by less than 0.005. *)
Theorem C3_scenario_A_converges :
  exists st bd log np np',
    for_range (of_Z 1600) OVERHEAD_RATE PROFIT_MARGIN COMMISSION_RATE TOL
      (range_length MAX_ITER) (initial_locals (of_Z 3200) (of_Z 1600) TAX_RATE)
    = (Ok st, log) /\
    List.length log = 11%nat /\
    compute_final_price_default (of_Z 3200) (of_Z 1600)
    = (Ok (decimal 1224023 2, bd), log) /\
    round2 (price st) = decimal 1224023 2 /\
    next_price (of_Z 1600) OVERHEAD_RATE PROFIT_MARGIN COMMISSION_RATE
      (taxed_material st) (price st) = Some np /\
    lt (absval (sub np (price st))) TOL = true /\
    next_price (of_Z 1600) OVERHEAD_RATE PROFIT_MARGIN COMMISSION_RATE
      (taxed_material st) (decimal 1224023 2) = Some np' /\
    lt (absval (sub np' (decimal 1224023 2))) (decimal 5 3) = true.
Proof. do 5 eexists. conj_eval. Qed.

(** ** C2: the counterexample *)

(** With no material, 736 of labor and every default, the last pass
    leaves a profit that rounds to 406.90 where the recomputed profit
    rounds to 406.91: the variant that keeps the last pass's amounts
    returns another breakdown. *)
Lemma C2_counterexample :
  exists fp bd bd' log,
    compute_final_price_default (of_Z 0) (of_Z 736) = (Ok (fp, bd), log) /\
    compute_final_price_retained (of_Z 0) (of_Z 736) TAX_RATE OVERHEAD_RATE
      PROFIT_MARGIN COMMISSION_RATE TOL MAX_ITER = (Ok (fp, bd'), log) /\
    get "Profit" bd = Some (decimal 40691 2) /\
    get "Profit" bd' = Some (decimal 40690 2) /\
    bd <> bd'.
Proof.
  do 4 eexists. do 4 (split; [vm_compute; reflexivity|]).
  intros E. apply (f_equal (get "Profit")) in E. vm_compute in E. discriminate.
Qed.

Lemma C9_final_price_entry_witness :
  get "Final Price" (match fst scenario_A_outcome with Ok r => snd r | Raise _ => [] end)
  = Some (decimal 1224023 2).
Proof.
  refine (proj1 (C9_final_price_entry (of_Z 3200) (of_Z 1600) TAX_RATE OVERHEAD_RATE
                   PROFIT_MARGIN COMMISSION_RATE TOL MAX_ITER
                   (fp := decimal 1224023 2) (log := snd scenario_A_outcome) _)).
  vm_compute. reflexivity.
Defined.

End FloatFacts.

(** * Rounding to two places *)

Section Rounding.

Import Float64 Fraction.

(** Half-even rounding of [n / d] lands within half a unit. *)
Lemma round_half_even_bound n d :
  (0 < d)%Z -> (Z.abs (2 * (round_half_even n d * d - n)) <= d)%Z.
Proof.
  intros Hd. unfold round_half_even.
  pose proof (Z.div_mod n d ltac:(lia)) as E.
  pose proof (Z.mod_pos_bound n d Hd) as B.
  destruct (2 * (n mod d) ?= d)%Z eqn:C.
  - apply Z.compare_eq in C. destruct (Z.even (n / d)); nia.
  - rewrite Z.compare_lt_iff in C. nia.
  - rewrite Z.compare_gt_iff in C. nia.
Qed.

Lemma round_half_even_nonneg n d :
  (0 <= n)%Z -> (0 < d)%Z -> (0 <= round_half_even n d)%Z.
Proof.
  intros Hn Hd. unfold round_half_even.
  pose proof (Z.div_pos n d Hn Hd).
  destruct (_ ?= _)%Z; [destruct (Z.even _)|..]; lia.
Qed.

Lemma exact_hundredths (x : Z) :
  (Qabs (inject_Z (100 * x) / 100 - inject_Z x) <= 1 # 200)%Q.
Proof.
  apply Qabs_Qle_condition.
  unfold Qle, Qminus, Qplus, Qdiv, Qmult, Qinv, Qopp, inject_Z; cbn [Qnum Qden].
  split; lia.
Qed.

Lemma hundredths_close m e :
  (Qabs (inject_Z (hundredths m e) / 100 - to_Q (S754_finite false m e)) <= 1 # 200)%Q.
Proof.
  unfold hundredths, to_Q. destruct e as [|p|k].
  - rewrite <- Z.mul_assoc. apply exact_hundredths.
  - rewrite <- Z.mul_assoc. apply exact_hundredths.
  - pose proof (@round_half_even_bound (100 * Z.pos m) (Z.pos (2 ^ k)) ltac:(lia)) as B.
    set (h := round_half_even _ _) in *.
    apply Qabs_Qle_condition.
    unfold Qle, Qminus, Qplus, Qdiv, Qmult, Qinv, Qopp, inject_Z; cbn [Qnum Qden].
    split; lia.
Qed.

Lemma hundredths_nonneg m e : (0 <= hundredths m e)%Z.
Proof.
  unfold hundredths. destruct e as [|p|k].
  - lia.
  - pose proof (Z.pow_nonneg 2 (Z.pos p)). nia.
  - apply round_half_even_nonneg; lia.
Qed.

(** [round(x, 2)] on a float. *)
Lemma fround2_two_places (x : float) : two_place_rounding x (fround2 x).
Proof.
  destruct x as [s|s| |s m e]; cbn [two_place_rounding fround2]; try reflexivity.
  exists (hundredths m e).
  split; [apply hundredths_nonneg|]. split; [apply hundredths_close|reflexivity].
Qed.

(** [round(x, 2)] on a fraction is within 0.005 of [x]. *)
Lemma qround2_close (x : fraction) :
  (Qabs (qround2 x - x) <= 1 # 200)%Q.
Proof.
  unfold qround2. rewrite Qred_correct. destruct x as [n d].
  pose proof (@round_half_even_bound (100 * n) (Z.pos d) ltac:(lia)) as B.
  cbn [Qnum Qden]. set (h := round_half_even _ _) in *.
  apply Qabs_Qle_condition.
  unfold Qle, Qminus, Qplus, Qopp; cbn [Qnum Qden].
  split; lia.
Qed.

(** ** C7 *)

(** On floats the claim fails by the representation of the rounded
    value: with a material cost of 0.125 (no labor, every default) the
    call succeeds, "Material Raw" is [round(0.125, 2)], the float nearest
    to 0.12, and its distance to 0.125 exceeds 0.005, both as an exact
    number and as Python computes and compares it. *)
Lemma C7_counterexample :
  exists fp bd log r,
    Shipped.compute_final_price_default (decimal 125 3) (of_Z 0) = (Ok (fp, bd), log) /\
    get "Material Raw" bd = Some r /\
    r = round2 (decimal 125 3) /\
    (1 # 200 < Qabs (to_Q r - to_Q (decimal 125 3)))%Q /\
    lt (decimal 5 3) (absval (sub r (decimal 125 3))) = true.
Proof.
  do 4 eexists.
  do 3 (split; [vm_compute; reflexivity|]).
  split; vm_compute; reflexivity.
Qed.

(** C7, as amended: on success the nine values of the breakdown are
    [round(x, 2)] of the nine unrounded amounts [x], in the order of the
    keys.  On fractions each is within 0.005 of its [x].  On floats each
    is the float nearest to a two-place decimal that is within 0.005 of
    [x] (an infinity or NaN is kept), so that its own distance to [x] can
    exceed 0.005 by the representation error of that decimal. *)
Theorem C7_rounded_breakdown :
  (forall (material_cost labor_cost tax_rate overhead_rate profit_margin
             commission_rate tol : float) (max_iter : Z) fp bd log,
      compute_final_price material_cost labor_cost tax_rate overhead_rate
        profit_margin commission_rate tol max_iter = (Ok (fp, bd), log) ->
      exists st,
        for_range labor_cost overhead_rate profit_margin commission_rate tol
          (range_length max_iter) (initial_locals material_cost labor_cost tax_rate)
        = (Ok st, log) /\
        Forall2 two_place_rounding
          (unrounded material_cost labor_cost (taxed_material st) (price st)
             (assign_costs labor_cost overhead_rate profit_margin commission_rate
                (taxed_material st) (price st)))
          (map snd bd)) /\
  (forall (material_cost labor_cost tax_rate overhead_rate profit_margin
             commission_rate tol : fraction) (max_iter : Z) fp bd log,
      compute_final_price material_cost labor_cost tax_rate overhead_rate
        profit_margin commission_rate tol max_iter = (Ok (fp, bd), log) ->
      exists st,
        for_range labor_cost overhead_rate profit_margin commission_rate tol
          (range_length max_iter) (initial_locals material_cost labor_cost tax_rate)
        = (Ok st, log) /\
        Forall2 (fun x y => (Qabs (y - x) <= 1 # 200)%Q)
          (unrounded material_cost labor_cost (taxed_material st) (price st)
             (assign_costs labor_cost overhead_rate profit_margin commission_rate
                (taxed_material st) (price st)))
          (map snd bd)).
Proof.
  split; intros mc lc tr oh pm cr tol max_iter fp bd log E;
    destruct (compute_final_price_ok _ _ _ _ _ _ _ _ E) as (st & q & R & _ & _ & V);
    exists st; (split; [exact R|]); rewrite V; cbn [map unrounded].
  - repeat constructor; apply fround2_two_places.
  - repeat constructor; apply qround2_close.
Qed.

Lemma C7_rounded_breakdown_witness :
  exists st,
    for_range (of_Z 1600) Shipped.OVERHEAD_RATE Shipped.PROFIT_MARGIN
      Shipped.COMMISSION_RATE Shipped.TOL (range_length Shipped.MAX_ITER)
      (initial_locals (of_Z 3200) (of_Z 1600) Shipped.TAX_RATE)
    = (Ok st, snd scenario_A_outcome) /\
    Forall2 two_place_rounding
      (unrounded (of_Z 3200) (of_Z 1600) (taxed_material st) (price st)
         (assign_costs (of_Z 1600) Shipped.OVERHEAD_RATE Shipped.PROFIT_MARGIN
            Shipped.COMMISSION_RATE (taxed_material st) (price st)))
      (map snd (match fst scenario_A_outcome with Ok r => snd r | Raise _ => [] end)).
Proof.
  refine (proj1 C7_rounded_breakdown (of_Z 3200) (of_Z 1600) Shipped.TAX_RATE
            Shipped.OVERHEAD_RATE Shipped.PROFIT_MARGIN Shipped.COMMISSION_RATE
            Shipped.TOL Shipped.MAX_ITER (decimal 1224023 2) _ _ _).
  vm_compute. reflexivity.
Defined.

End Rounding.

(** * Runs without commission, on floats *)

Section ZeroCommission.

Import Float64.

Ltac float_cases :=
  repeat match goal with
         | x : float |- _ => destruct x
         | x : spec_float |- _ => destruct x
         | H : is_zero _ = true |- _ => try discriminate H; clear H
         | s : bool |- _ => destruct s
         end;
  first [ left; reflexivity | right; split; reflexivity ].

Lemma feq_refl x : feq x x.
Proof. now left. Qed.

Lemma fadd_feq a a' b b' : feq a a' -> feq b b' -> feq (fadd a b) (fadd a' b').
Proof.
  intros [->|[Za Za']] [->|[Zb Zb']]; [now left|..].
  - destruct b, b'; try discriminate. destruct a' as [| | |? ? ?]; [..|now left].
    all: float_cases.
  - destruct a, a'; try discriminate. destruct b' as [| | |? ? ?]; [..|now left].
    all: float_cases.
  - float_cases.
Qed.

Lemma fmul_feq a a' c : feq a a' -> feq (fmul a c) (fmul a' c).
Proof.
  intros [->|[Za Za']]; [now left|].
  destruct a, a'; try discriminate. destruct c; float_cases.
Qed.

Lemma fdiv_feq a a' c : feq a a' -> feq (fdiv a c) (fdiv a' c).
Proof.
  intros [->|[Za Za']]; [now left|].
  destruct a, a'; try discriminate. destruct c; float_cases.
Qed.

(** With a zero margin or a zero commission rate, a commission that is
    finite is zero. *)
Lemma commission_is_zero x pm cr :
  is_zero pm || is_zero cr = true ->
  is_finite (fmul (fmul x pm) cr) = true ->
  is_zero (fmul (fmul x pm) cr) = true.
Proof.
  intros HZ F. apply orb_true_iff in HZ. destruct HZ as [HZ|HZ].
  - destruct pm; try discriminate. destruct x, cr; cbn in *; try discriminate; reflexivity.
  - destruct cr; try discriminate. destruct (fmul x pm); cbn in *; try discriminate; reflexivity.
Qed.

Lemma fsub_feq_zero a b :
  feq a b -> is_finite b = true -> SFabs (fsub a b) = S754_zero false.
Proof.
  intros [->|[Za Zb]] F.
  - destruct b as [[|]| | |s m e]; try discriminate; try reflexivity.
    unfold fsub, SFsub. rewrite Z.sub_diag. reflexivity.
  - destruct a as [[|]| | |], b as [[|]| | |]; try discriminate; reflexivity.
Qed.

Variables material_cost labor_cost tax_rate : float.
Variables overhead_rate profit_margin commission_rate tol : float.

Local Abbreviation costs_of := (assign_costs labor_cost overhead_rate profit_margin commission_rate).
Local Abbreviation step := (next_price labor_cost overhead_rate profit_margin commission_rate).
Local Abbreviation finite_pass := (pass_is_finite labor_cost overhead_rate profit_margin commission_rate).
Local Abbreviation start := (initial_locals material_cost labor_cost tax_rate).

(** Without commission the step makes the same price of any two prices
    (up to the sign of zero). *)
Lemma step_feq taxed x y np1 np2 :
  is_zero profit_margin || is_zero commission_rate = true ->
  is_finite (commission (costs_of taxed x)) = true ->
  is_finite (commission (costs_of taxed y)) = true ->
  step taxed x = Some np1 ->
  step taxed y = Some np2 ->
  feq np2 np1.
Proof.
  intros HZ Fx Fy. unfold next_price. cbn [truediv float_number]. unfold ftruediv.
  destruct (is_zero (sub one profit_margin)); [discriminate|].
  intros [= <-] [= <-]. apply fdiv_feq.
  cbn [total_cost assign_costs base_cost overhead total_labor].
  cbn [commission assign_costs] in Fx, Fy. cbn [mul float_number] in Fx, Fy.
  pose proof (commission_is_zero _ _ _ HZ Fx) as Zx.
  pose proof (commission_is_zero _ _ _ HZ Fy) as Zy.
  cbn [add mul float_number].
  assert (B : feq (fadd taxed (fadd labor_cost (fmul (fmul y profit_margin) commission_rate)))
                  (fadd taxed (fadd labor_cost (fmul (fmul x profit_margin) commission_rate)))).
  { apply fadd_feq; [apply feq_refl|]. apply fadd_feq; [apply feq_refl|]. right. auto. }
  apply fadd_feq; [exact B|]. apply fmul_feq. exact B.
Qed.

(** ** C10 *)

(** The claim fails when the tolerance is not positive (no difference
    is below 0, not even 0), and on floats when an amount overflows (a
    100 % tax on 1e308 makes the prices infinite and their difference
    NaN): both calls have a zero profit margin and a budget of 1000
    passes, and raise the ConvergenceError. *)
Lemma C10_counterexample :
  (exists log,
      compute_final_price (of_Z 3200) (of_Z 1600) Shipped.TAX_RATE Shipped.OVERHEAD_RATE
        (of_Z 0) Shipped.COMMISSION_RATE (of_Z 0) 1000
      = (Raise ConvergenceError, log)) /\
  (exists log,
      compute_final_price (of_Z (10 ^ 308)) (of_Z 1600) (of_Z 1) Shipped.OVERHEAD_RATE
        (of_Z 0) Shipped.COMMISSION_RATE Shipped.TOL 1000
      = (Raise ConvergenceError, log)) /\
  mul (of_Z 0) Shipped.COMMISSION_RATE = of_Z 0 /\
  lt (of_Z 0) one = true.
Proof.
  split; [eexists; vm_compute; reflexivity|].
  split; [eexists; vm_compute; reflexivity|].
  split; vm_compute; reflexivity.
Qed.

(** C10, as amended: on floats, when the profit margin or the
    commission rate is zero, the tolerance is positive, the budget is at
    least two passes, and in the first two passes the division does not
    raise and neither the commission nor the new price overflows or is
    NaN, the call succeeds after at most two tolerance tests. *)
Theorem C10_zero_commission_converges (max_iter : Z) :
  is_zero profit_margin || is_zero commission_rate = true ->
  lt zero tol = true ->
  finite_pass (taxed_material start) (price start) = true ->
  (forall np,
      step (taxed_material start) (price start) = Some np ->
      finite_pass (taxed_material start) np = true) ->
  (2 <= max_iter)%Z ->
  exists r log,
    compute_final_price material_cost labor_cost tax_rate overhead_rate
      profit_margin commission_rate tol max_iter = (Ok r, log) /\
    (List.length log <= 2)%nat.
Proof.
  intros HZ T F1 F2 Hmax.
  rewrite compute_final_price_unfold.
  destruct (range_length max_iter) as [|[|n]] eqn:R;
    [unfold range_length in R; lia | unfold range_length in R; lia|].
  set (st0 := start) in *.
  rewrite for_range_S.
  unfold pass_is_finite in F1. apply andb_true_iff in F1. destruct F1 as [C1 N1].
  destruct (step (taxed_material st0) (price st0)) as [np1|] eqn:E1; [|discriminate].
  specialize (F2 np1 eq_refl). unfold pass_is_finite in F2.
  apply andb_true_iff in F2. destruct F2 as [C2 N2].
  destruct (step (taxed_material st0) np1) as [np2|] eqn:E2; [|discriminate].
  cbn zeta. destruct (lt (absval (sub np1 (price st0))) tol).
  - do 2 eexists. split; [reflexivity|]. cbn. lia.
  - rewrite for_range_S. cbn [taxed_material price after_pass]. rewrite E2.
    cbn zeta.
    assert (A : lt (absval (sub np2 np1)) tol = true).
    { cbn [lt absval sub float_number].
      assert (Q : feq np2 np1)
        by exact (@step_feq (taxed_material st0) (price st0) np1 np1 np2 HZ C1 C2 E1 E2).
      rewrite (fsub_feq_zero Q N1). exact T. }
    rewrite A. do 2 eexists. split; [reflexivity|]. cbn. lia.
Qed.

End ZeroCommission.

Section ZeroCommissionWitness.

Import Float64 Shipped.

Lemma C10_zero_commission_converges_witness :
  exists r log,
    compute_final_price (of_Z 3200) (of_Z 1600) TAX_RATE OVERHEAD_RATE
      (of_Z 0) COMMISSION_RATE TOL 2 = (Ok r, log) /\
    (List.length log <= 2)%nat.
Proof.
  apply (@C10_zero_commission_converges (of_Z 3200) (of_Z 1600) TAX_RATE
           OVERHEAD_RATE (of_Z 0) COMMISSION_RATE TOL 2).
  - reflexivity.
  - reflexivity.
  - vm_compute. reflexivity.
  - intros np E. vm_compute in E. injection E as <-. vm_compute. reflexivity.
  - lia.
Defined.

(** ** C1: the counterexample *)

(** Scenario A with a profit margin of 0.9, which lies in [0, 1): each
    step multiplies the distance between successive prices by about 3,
    the prices overflow, and after 1000 tolerance tests the call raises
    the ConvergenceError. *)
Lemma C1_counterexample :
  SFleb (of_Z 0) (decimal 9 1) = true /\
  SFltb (decimal 9 1) (of_Z 1) = true /\
  exists log,
    compute_final_price (of_Z 3200) (of_Z 1600) TAX_RATE OVERHEAD_RATE
      (decimal 9 1) COMMISSION_RATE TOL MAX_ITER
    = (Raise ConvergenceError, log) /\
    List.length log = 1000%nat.
Proof.
  split; [reflexivity|]. split; [reflexivity|].
  eexists. split; [vm_compute; reflexivity|].
  vm_compute. reflexivity.
Qed.

End ZeroCommissionWitness.

(** * The resolver in exact arithmetic *)

Section Powers.

Import Fraction.
Open Scope Q_scope.

Lemma qpow_nonneg r m : 0 <= r -> 0 <= qpow r m.
Proof.
  intros Hr. induction m as [|m IH]; cbn; [discriminate|].
  apply Qmult_le_0_compat; assumption.
Qed.

Lemma qpow_le_1 r m : 0 <= r -> r <= 1 -> qpow r m <= 1.
Proof.
  intros H0 H1. induction m as [|m IH]; cbn; [apply Qle_refl|].
  pose proof (qpow_nonneg m H0). nra.
Qed.

Lemma Qmult_le_l_weak x y z : 0 <= z -> x <= y -> z * x <= z * y.
Proof. intros. nra. Qed.

(** Bernoulli's inequality, in the form
    [r^m * (1 + m * (1 - r)) <= 1] for [0 <= r <= 1]. *)
Lemma qpow_bernoulli r m :
  0 <= r -> r <= 1 -> qpow r m * (1 + inject_Z (Z.of_nat m) * (1 - r)) <= 1.
Proof.
  intros H0 H1. induction m as [|m IH].
  - cbn [qpow]. change (inject_Z (Z.of_nat 0)) with 0. lra.
  - pose proof (qpow_nonneg m H0) as P. pose proof (qpow_le_1 m H0 H1) as L.
    rewrite Nat2Z.inj_succ. unfold Z.succ. rewrite inject_Z_plus.
    cbn [qpow]. set (p := qpow r m) in *. set (z := inject_Z (Z.of_nat m)) in *.
    change (inject_Z 1) with 1.
    assert (A1 : r * (p * (1 + z * (1 - r))) <= r).
    { setoid_replace r with (r * 1) at 3 by ring.
      apply Qmult_le_l_weak; assumption. }
    assert (A2 : r * p * (1 - r) <= 1 - r).
    { assert (r * p <= 1) by nra. nra. }
    lra.
Qed.

Lemma nat_above (q : Q) : exists m : nat, q < inject_Z (Z.of_nat m).
Proof.
  destruct q as [n d]. exists (Z.to_nat (Z.abs n + 1)).
  unfold Qlt, inject_Z. cbn [Qnum Qden]. rewrite Z2Nat.id by lia. nia.
Qed.

(** The powers of a ratio below 1 fall below any positive bound. *)
Lemma qpow_small r c eps :
  0 <= r -> r < 1 -> 0 <= c -> 0 < eps -> exists m, qpow r m * c < eps.
Proof.
  intros H0 H1 Hc He.
  destruct (nat_above (c / (eps * (1 - r)))) as [m Hm].
  exists m.
  pose proof (qpow_bernoulli m H0 (Qlt_le_weak _ _ H1)) as B.
  pose proof (qpow_nonneg m H0) as P.
  set (p := qpow r m) in *. set (z := inject_Z (Z.of_nat m)) in *.
  assert (D : 0 < eps * (1 - r)) by nra.
  assert (Hc' : c < z * (eps * (1 - r))).
  { pose proof (proj2 (Qmult_lt_r _ _ _ D) Hm) as Hm'.
    setoid_replace (c / (eps * (1 - r)) * (eps * (1 - r))) with c in Hm'; [exact Hm'|].
    field. split; intros E; rewrite E in *; lra. }
  assert (A1 : p * c <= p * (z * (eps * (1 - r))))
    by (apply Qmult_le_l_weak; [exact P | apply Qlt_le_weak; exact Hc']).
  assert (A2 : eps * (p * (1 + z * (1 - r))) <= eps * 1)
    by (apply Qmult_le_l_weak; [apply Qlt_le_weak; exact He | exact B]).
  assert (A3 : p * c <= eps - eps * p) by nra.
  destruct (Qlt_le_dec 0 p) as [Pp|Pz].
  - nra.
  - assert (p == 0) by lra. nra.
Qed.

End Powers.

Section FractionResolver.

Import Fraction.
Open Scope Q_scope.

Variables material_cost labor_cost : fraction.
Variables tax_rate overhead_rate profit_margin commission_rate : fraction.
Variable tol : fraction.

Local Abbreviation costs_of := (assign_costs labor_cost overhead_rate profit_margin commission_rate).
Local Abbreviation step := (next_price labor_cost overhead_rate profit_margin commission_rate).
Local Abbreviation loop := (for_range labor_cost overhead_rate profit_margin commission_rate tol).
Local Abbreviation k := (factor overhead_rate profit_margin commission_rate).
Local Abbreviation a := (offset labor_cost overhead_rate profit_margin).
Local Abbreviation delta := (move labor_cost overhead_rate profit_margin commission_rate).

Lemma qlt_true x y : qlt x y = true <-> x < y.
Proof.
  unfold qlt. rewrite negb_true_iff. split.
  - intros H. apply Qnot_le_lt. intros L. apply Qle_bool_iff in L. congruence.
  - intros H. destruct (Qle_bool y x) eqn:E; [|reflexivity].
    apply Qle_bool_iff in E. exfalso. apply (Qlt_not_le _ _ H E).
Qed.

(** The tolerance test of line 49, read on the rationals. *)
Lemma check_spec (np x : fraction) :
  lt (absval (sub np x)) tol = true <-> Qabs (np - x) < tol.
Proof.
  cbn [lt absval sub fraction_number]. rewrite qlt_true.
  unfold qabs, qsub. now rewrite !Qred_correct.
Qed.

Hypothesis margin_not_one : ~ profit_margin == 1.

(** The step is the affine map [x |-> a + k * x]. *)
Lemma step_affine (taxed x : fraction) :
  exists np, step taxed x = Some np /\ np == a taxed + k * x.
Proof.
  unfold next_price. cbn [truediv fraction_number]. unfold qtruediv.
  assert (D : ~ 1 - profit_margin == 0) by (intros E; apply margin_not_one; lra).
  destruct (Qeq_bool _ 0) eqn:E.
  - apply Qeq_bool_iff in E. exfalso. apply D. rewrite <- E.
    cbn [sub one fraction_number]. unfold qsub. now rewrite Qred_correct.
  - eexists. split; [reflexivity|].
    cbn [total_cost assign_costs add sub mul one fraction_number].
    unfold qadd, qsub, qmul, offset, factor. rewrite !Qred_correct.
    field. exact D.
Qed.

(** Each step multiplies the distance to the next price by [k]. *)
Lemma move_step (taxed x np : fraction) :
  np == a taxed + k * x ->
  delta taxed np == k * delta taxed x.
Proof. intros E. unfold move. rewrite E. ring. Qed.

Hypothesis contraction : Qabs k <= 1.

(** Once [|k|^m] times the first move is below the tolerance, any budget
    above [m] passes lets the loop accept a price, which one more step
    then moves by less than the tolerance. *)
Lemma loop_converges m :
  forall n (st : locals (num := fraction)),
    (m < n)%nat ->
    qpow (Qabs k) m * Qabs (delta (taxed_material st) (price st)) < tol ->
    exists st' log np',
      loop n st = (Ok st', log) /\
      (List.length log <= S m)%nat /\
      step (taxed_material st') (price st') = Some np' /\
      lt (absval (sub np' (price st'))) tol = true.
Proof.
  induction m as [|m IH]; intros n st Hn Hm.
  all: destruct n as [|n]; [lia|]; rewrite for_range_S.
  all: destruct (step_affine (taxed_material st) (price st)) as (np & E & A); rewrite E; cbn zeta.
  all: assert (Mv : np - price st == delta (taxed_material st) (price st))
         by (unfold move; rewrite A; ring).
  all: destruct (step_affine (taxed_material st) np) as (np' & E' & A').
  all: assert (Mv' : Qabs (np' - np) == Qabs k * Qabs (delta (taxed_material st) (price st)))
         by (rewrite <- Qabs_Qmult, <- (move_step A); unfold move; rewrite A'; reflexivity).
  all: pose proof (Qabs_nonneg (delta (taxed_material st) (price st))) as Nn.
  all: pose proof (Qabs_nonneg k) as Nf.
  all: assert (Acc : Qabs (np - price st) < tol ->
         exists st' log np'0,
           (Ok (after_pass labor_cost overhead_rate profit_margin commission_rate st np),
            [ToleranceCheck np (price st) true]) = (Ok st', log) /\
           (List.length log <= 1)%nat /\
           step (taxed_material st') (price st') = Some np'0 /\
           lt (absval (sub np'0 (price st'))) tol = true).
  1,3: intros L; do 3 eexists; split; [reflexivity|]; split; [cbn; lia|];
       cbn [taxed_material price after_pass]; split; [exact E'|];
       apply check_spec; rewrite Mv'; rewrite Mv in L; nra.
  - cbn [qpow] in Hm. assert (L : Qabs (np - price st) < tol) by (rewrite Mv; lra).
    rewrite (proj2 (check_spec _ _) L).
    destruct (Acc L) as (st' & log & np1 & Q1 & Q2 & Q3).
    exists st', log, np1. auto.
  - destruct (lt (absval (sub np (price st))) tol) eqn:C.
    + apply check_spec in C. destruct (Acc C) as (st' & log & np1 & Q1 & Q2 & Q3).
      exists st', log, np1. split; [exact Q1|]. split; [lia|]. exact Q3.
    + destruct (IH n (after_pass labor_cost overhead_rate profit_margin commission_rate st np))
        as (st' & log & np1 & Q1 & Q2 & Q3); [lia| |].
      * cbn [taxed_material price after_pass]. rewrite (move_step A), Qabs_Qmult.
        cbn [qpow] in Hm. lra.
      * rewrite Q1. exists st', (ToleranceCheck np (price st) false :: log), np1.
        split; [reflexivity|]. split; [cbn; lia|]. exact Q3.
Qed.

End FractionResolver.

Section Convergence.

Import Fraction.
Open Scope Q_scope.

Lemma factor_below_one (overhead_rate profit_margin commission_rate : fraction) :
  profit_margin < 1 ->
  Qabs (profit_margin * commission_rate * (1 + overhead_rate)) < 1 - profit_margin ->
  Qabs (factor overhead_rate profit_margin commission_rate) < 1.
Proof.
  intros Hm Hc. unfold factor.
  assert (D : 0 < 1 - profit_margin) by lra.
  unfold Qdiv. rewrite Qabs_Qmult.
  rewrite (Qabs_pos (/ (1 - profit_margin)))
    by (apply Qlt_le_weak, Qinv_lt_0_compat, D).
  apply Qlt_shift_div_r; [exact D|]. lra.
Qed.

(** The part of C1 that holds in exact arithmetic. *)
Lemma fraction_converges
    (material_cost labor_cost tax_rate overhead_rate profit_margin
       commission_rate tol : fraction) :
  profit_margin < 1 ->
  Qabs (profit_margin * commission_rate * (1 + overhead_rate)) < 1 - profit_margin ->
  0 < tol ->
  exists N : nat,
    forall max_iter : Z,
      (Z.of_nat N <= max_iter)%Z ->
      exists fp bd log p np,
        compute_final_price material_cost labor_cost tax_rate overhead_rate
          profit_margin commission_rate tol max_iter = (Ok (fp, bd), log) /\
        (List.length log <= N)%nat /\
        fp = round2 p /\
        next_price labor_cost overhead_rate profit_margin commission_rate
          (mul material_cost (add one tax_rate)) p = Some np /\
        lt (absval (sub np p)) tol = true.
Proof.
  intros Hm Hc Ht.
  pose proof (factor_below_one Hm Hc) as K.
  assert (M1 : ~ profit_margin == 1) by lra.
  set (st0 := initial_locals material_cost labor_cost tax_rate).
  destruct (@qpow_small (Qabs (factor overhead_rate profit_margin commission_rate))
              (Qabs (move labor_cost overhead_rate profit_margin commission_rate
                       (taxed_material st0) (price st0))) tol)
    as [m Hmv]; [apply Qabs_nonneg | exact K | apply Qabs_nonneg | exact Ht |].
  exists (S m). intros max_iter Hmax.
  destruct (@loop_converges labor_cost overhead_rate profit_margin commission_rate tol
              M1 (Qlt_le_weak _ _ K) m (range_length max_iter) st0)
    as (st & log & np & R & L & E & C); [unfold range_length; lia | exact Hmv |].
  rewrite compute_final_price_unfold. fold st0. rewrite R.
  destruct (for_range_ok _ _ _ _ _ _ _ R) as (T & _).
  do 2 eexists. exists log, (price st), np.
  split; [reflexivity|]. split; [exact L|]. split; [reflexivity|].
  split; [|exact C]. rewrite <- E, T. reflexivity.
Qed.

(** ** C1 *)

(** C1, as amended.  For every numeric type the call makes at most
    [max_iter] tolerance tests and then returns or raises, and when it
    returns, the final price is the rounding of a price [p] that the
    step made of a price [q] with [|p - q| < tol].  In exact arithmetic,
    when [profit_margin < 1], the tolerance is positive and the step is a
    contraction, [|profit_margin * commission_rate * (1 + overhead_rate)|
    < 1 - profit_margin], there is a budget [N] such that with every
    [max_iter >= N] the call returns, and one more step moves the price
    [p] behind the final price by less than the tolerance. *)
Theorem C1_termination_and_convergence :
  (forall (num : Type) (NUM : PyNumber num)
          (material_cost labor_cost tax_rate overhead_rate profit_margin
             commission_rate tol : num) (max_iter : Z),
      (List.length
         (snd (compute_final_price material_cost labor_cost tax_rate overhead_rate
                 profit_margin commission_rate tol max_iter))
       <= range_length max_iter)%nat /\
      forall fp bd log,
        compute_final_price material_cost labor_cost tax_rate overhead_rate
          profit_margin commission_rate tol max_iter = (Ok (fp, bd), log) ->
        exists p q,
          next_price labor_cost overhead_rate profit_margin commission_rate
            (mul material_cost (add one tax_rate)) q = Some p /\
          lt (absval (sub p q)) tol = true /\
          fp = round2 p) /\
  (forall material_cost labor_cost tax_rate overhead_rate profit_margin
          commission_rate tol : fraction,
      profit_margin < 1 ->
      Qabs (profit_margin * commission_rate * (1 + overhead_rate)) < 1 - profit_margin ->
      0 < tol ->
      exists N : nat,
        forall max_iter : Z,
          (Z.of_nat N <= max_iter)%Z ->
          exists fp bd log p np,
            compute_final_price material_cost labor_cost tax_rate overhead_rate
              profit_margin commission_rate tol max_iter = (Ok (fp, bd), log) /\
            (List.length log <= N)%nat /\
            fp = round2 p /\
            next_price labor_cost overhead_rate profit_margin commission_rate
              (mul material_cost (add one tax_rate)) p = Some np /\
            lt (absval (sub np p)) tol = true).
Proof.
  split.
  - intros. apply resolver_terminates.
  - exact fraction_converges.
Qed.

(** Scenario A on fractions. *)
Lemma C1_termination_and_convergence_witness :
  exists N : nat,
    forall max_iter : Z,
      (Z.of_nat N <= max_iter)%Z ->
      exists fp bd log p np,
        compute_final_price (3200 # 1) (1600 # 1) (913 # 10000) (6666 # 10000)
          (23 # 100) (20 # 100) (1 # 1000000) max_iter = (Ok (fp, bd), log) /\
        (List.length log <= N)%nat /\
        fp = round2 p /\
        next_price (1600 # 1) (6666 # 10000) (23 # 100) (20 # 100)
          (mul (3200 # 1) (add one (913 # 10000))) p = Some np /\
        lt (absval (sub np p)) (1 # 1000000) = true.
Proof.
  apply (proj2 C1_termination_and_convergence
           (3200 # 1) (1600 # 1) (913 # 10000) (6666 # 10000)
           (23 # 100) (20 # 100) (1 # 1000000)).
  - reflexivity.
  - vm_compute. reflexivity.
  - reflexivity.
Defined.

(** The divergence is no effect of rounding: on fractions, a margin of
    1/2 with a commission rate of 1 and no overhead makes every step add
    2 to the price, and the call raises after its 1000 tests. *)
Lemma fraction_divergence :
  exists log,
    compute_final_price 0 1 0 0 (1 # 2) 1 (1 # 1000000) 1000
    = (Raise ConvergenceError, log) /\
    List.length log = 1000%nat.
Proof.
  eexists. split; [vm_compute; reflexivity|]. vm_compute. reflexivity.
Qed.

End Convergence.

(** * Further properties of the resolver and of the driver *)

Section OutcomeFacts.
Context {num : Type} {NUM : PyNumber num}.

(** A tolerance test that did not hold. *)
Definition failed_check (ev : event (num := num)) : Prop :=
  exists np q, ev = ToleranceCheck np q false.

Variables material_cost labor_cost : num.
Variables tax_rate overhead_rate profit_margin commission_rate : num.
Variable tol : num.

Local Abbreviation step := (next_price labor_cost overhead_rate profit_margin commission_rate).
Local Abbreviation loop := (for_range labor_cost overhead_rate profit_margin commission_rate tol).
Local Abbreviation start := (initial_locals material_cost labor_cost tax_rate).
Local Abbreviation after := (after_pass labor_cost overhead_rate profit_margin commission_rate).

(** How the loop ends, read off its log. *)
Lemma for_range_shape n :
  forall st,
    match loop n st with
    | (Ok st', log) =>
        exists log' q,
          log = log' ++ [ToleranceCheck (price st') q true] /\
          Forall failed_check log'
    | (Raise e, log) =>
        Forall failed_check log /\
        ((e = ConvergenceError /\ List.length log = n) \/
         (e = ZeroDivisionError /\ (List.length log < n)%nat))
    end.
Proof.
  induction n as [|n IH]; intros st.
  - cbn. split; [constructor|]. left. auto.
  - rewrite for_range_S. destruct (step _ _) as [np|]; cbn zeta.
    + destruct (lt _ _).
      * exists [], (price st). split; [reflexivity|constructor].
      * specialize (IH (after st np)).
        destruct (loop n (after st np)) as [[st'|e] log].
        -- destruct IH as (log' & q & -> & F).
           exists (ToleranceCheck np (price st) false :: log'), q.
           split; [reflexivity|]. constructor; [|exact F]. now exists np, (price st).
        -- destruct IH as (F & H). split.
           ++ constructor; [|exact F]. now exists np, (price st).
           ++ cbn [List.length]. destruct H as [[-> <-]|[-> L]]; [left|right]; split; auto; lia.
    + split; [constructor|]. right. split; [reflexivity|cbn; lia].
Qed.

(** A larger budget does not change a run that was accepted. *)
Lemma for_range_more n m :
  forall st st' log,
    loop n st = (Ok st', log) -> loop (n + m) st = (Ok st', log).
Proof.
  induction n as [|n IH]; intros st st' log; [discriminate|].
  cbn [Nat.add]. rewrite !for_range_S. destruct (step _ _) as [np|]; [|discriminate].
  cbn zeta. destruct (lt _ _); [auto|].
  destruct (loop n (after st np)) as [r l] eqn:R. intros [= -> <-].
  erewrite IH; [reflexivity|exact R].
Qed.

(** X1: a call ends in one of three ways.  It returns, on a tolerance
    test that holds, every earlier test having failed, and the final
    price is the rounding of the price that test accepted.  Or it raises
    the ConvergenceError after exactly [max_iter] tests, all failed.  Or
    it raises ZeroDivisionError, after fewer than [max_iter] tests, all
    failed.  It raises nothing else and makes no test after one that
    holds. *)
Theorem outcome_shape (max_iter : Z) :
  match compute_final_price material_cost labor_cost tax_rate overhead_rate
          profit_margin commission_rate tol max_iter with
  | (Ok (fp, bd), log) =>
      exists log' p q,
        log = log' ++ [ToleranceCheck p q true] /\
        Forall failed_check log' /\
        fp = round2 p
  | (Raise e, log) =>
      Forall failed_check log /\
      ((e = ConvergenceError /\ List.length log = range_length max_iter) \/
       (e = ZeroDivisionError /\ (List.length log < range_length max_iter)%nat))
  end.
Proof.
  rewrite compute_final_price_unfold.
  pose proof (for_range_shape (range_length max_iter) start) as S.
  destruct (loop _ _) as [[st|e] log]; [|exact S].
  destruct S as (log' & q & -> & F). exists log', (price st), q. auto.
Qed.

(** X2: a call that returns with a budget of [max_iter] passes returns
    the same pair, after the same tests, with every larger budget. *)
Theorem larger_budget_same_result (max_iter max_iter' : Z) r log :
  (max_iter <= max_iter')%Z ->
  compute_final_price material_cost labor_cost tax_rate overhead_rate
    profit_margin commission_rate tol max_iter = (Ok r, log) ->
  compute_final_price material_cost labor_cost tax_rate overhead_rate
    profit_margin commission_rate tol max_iter' = (Ok r, log).
Proof.
  intros Hle. rewrite !compute_final_price_unfold.
  destruct (loop (range_length max_iter) start) as [[st|e] l] eqn:R; [|discriminate].
  intros [= <- <-].
  assert (E : range_length max_iter' = (range_length max_iter + (range_length max_iter' - range_length max_iter))%nat)
    by (unfold range_length; lia).
  rewrite E. erewrite for_range_more; [reflexivity|exact R].
Qed.

(** X3: a budget that is zero or negative makes [range(max_iter)]
    empty: the call raises the ConvergenceError without a single test. *)
Theorem no_budget_no_test (max_iter : Z) :
  (max_iter <= 0)%Z ->
  compute_final_price material_cost labor_cost tax_rate overhead_rate
    profit_margin commission_rate tol max_iter = (Raise ConvergenceError, []).
Proof.
  intros H. rewrite compute_final_price_unfold.
  replace (range_length max_iter) with 0%nat by (unfold range_length; lia).
  reflexivity.
Qed.

End OutcomeFacts.

Section ZeroDivisor.
Context {num : Type} {NUM : PyNumber num}.
Variables material_cost labor_cost : num.
Variables tax_rate overhead_rate profit_margin commission_rate : num.
Variable tol : num.
Local Abbreviation step := (next_price labor_cost overhead_rate profit_margin commission_rate).
Local Abbreviation loop := (for_range labor_cost overhead_rate profit_margin commission_rate tol).
Local Abbreviation start := (initial_locals material_cost labor_cost tax_rate).
Local Abbreviation after := (after_pass labor_cost overhead_rate profit_margin commission_rate).

(** When the divisor [1 - profit_margin] is refused whatever the
    numerator, the first pass raises. *)
Lemma zero_divisor_raises (max_iter : Z) :
  (forall x, truediv x (sub one profit_margin) = None) ->
  (1 <= max_iter)%Z ->
  compute_final_price material_cost labor_cost tax_rate overhead_rate
    profit_margin commission_rate tol max_iter = (Raise ZeroDivisionError, []).
Proof.
  intros D H. rewrite compute_final_price_unfold.
  destruct (range_length max_iter) as [|n] eqn:R; [unfold range_length in R; lia|].
  rewrite for_range_S. unfold next_price. now rewrite D.
Qed.

(** When it is accepted whatever the numerator, no pass raises. *)
Lemma nonzero_divisor_never_raises n :
  (forall x, truediv x (sub one profit_margin) <> None) ->
  forall st log, loop n st <> (Raise ZeroDivisionError, log).
Proof.
  intros D. induction n as [|n IH]; intros st log.
  - cbn. discriminate.
  - rewrite for_range_S. destruct (step _ _) as [np|] eqn:E.
    + cbn zeta. destruct (lt _ _); [discriminate|].
      destruct (loop n (after st np)) as [r l] eqn:R. intros [= -> <-].
      exact (IH _ _ R).
    + exfalso. exact (D _ E).
Qed.
End ZeroDivisor.

Section FloatZeroDivisor.
Import Float64.
Variables material_cost labor_cost : float.
Variables tax_rate overhead_rate profit_margin commission_rate : float.
Variable tol : float.

(** X4: on floats the call raises ZeroDivisionError exactly when
    [1 - profit_margin] is zero (a profit margin of 1.0) and the budget
    allows one pass; it then raises on line 48 of the first pass. *)
Theorem float_zero_division (max_iter : Z) :
  fst (compute_final_price material_cost labor_cost tax_rate overhead_rate
         profit_margin commission_rate tol max_iter) = Raise ZeroDivisionError
  <-> (is_zero (fsub (of_Z 1) profit_margin) = true /\ (1 <= max_iter)%Z).
Proof.
  split.
  - intros H. destruct (is_zero (fsub (of_Z 1) profit_margin)) eqn:Z.
    + split; [reflexivity|].
      destruct (Z_le_gt_dec max_iter 0) as [L|G]; [|lia].
      rewrite compute_final_price_unfold in H.
      replace (range_length max_iter) with 0%nat in H by (unfold range_length; lia).
      discriminate H.
    + exfalso. rewrite compute_final_price_unfold in H.
      destruct (for_range _ _ _ _ _ _ _) as [[st|e] log] eqn:R; [discriminate|].
      cbn in H. injection H as ->.
      revert R. apply nonzero_divisor_never_raises.
      intros x. cbn [truediv sub one float_number]. unfold ftruediv. rewrite Z. discriminate.
  - intros [Z H]. rewrite zero_divisor_raises; [reflexivity| |exact H].
    intros x. cbn [truediv sub one float_number]. unfold ftruediv. now rewrite Z.
Qed.

End FloatZeroDivisor.

Section FloatFinite.
Import Float64.

Lemma shr_1_nonneg mrs : (0 <= shr_m mrs)%Z -> (0 <= shr_m (shr_1 mrs))%Z.
Proof.
  destruct mrs as [m r s]. cbn [shr_m]. intros H.
  destruct m as [|[p|p|]|p]; cbn; lia.
Qed.

Lemma iter_shr_1_nonneg p :
  forall mrs, (0 <= shr_m mrs)%Z -> (0 <= shr_m (iter_pos shr_1 p mrs))%Z.
Proof.
  induction p as [p IH|p IH|]; intros mrs H; cbn [iter_pos].
  - apply IH, IH, shr_1_nonneg, H.
  - apply IH, IH, H.
  - apply shr_1_nonneg, H.
Qed.

Lemma shr_fexp_nonneg m e l :
  (0 <= m)%Z -> (0 <= shr_m (fst (shr_fexp prec emax m e l)))%Z.
Proof.
  intros H. unfold shr_fexp, shr.
  assert (H0 : (0 <= shr_m (shr_record_of_loc m l))%Z)
    by (destruct l as [|[| |]]; exact H).
  destruct (_ - e)%Z; cbn [fst]; [exact H0| |exact H0].
  apply iter_shr_1_nonneg, H0.
Qed.

Lemma round_nearest_even_nonneg m l :
  (0 <= m)%Z -> (0 <= round_nearest_even m l)%Z.
Proof.
  intros H. destruct l as [|[| |]]; cbn; [lia| |lia|lia].
  destruct (Z.even m); lia.
Qed.

Lemma binary_round_aux_not_nan s m e l :
  (0 <= m)%Z -> binary_round_aux prec emax s m e l <> S754_nan.
Proof.
  intros H. unfold binary_round_aux.
  pose proof (shr_fexp_nonneg e l H) as H1.
  destruct (shr_fexp prec emax m e l) as [mrs' e'].
  pose proof (@shr_fexp_nonneg (round_nearest_even (shr_m mrs') (loc_of_shr_record mrs')) e' loc_Exact
                (round_nearest_even_nonneg _ H1)) as H2.
  destruct (shr_fexp prec emax _ e' loc_Exact) as [mrs'' e''].
  cbn [fst] in H2. destruct (shr_m mrs''); [discriminate| |lia].
  destruct (_ <=? _)%Z; discriminate.
Qed.

Lemma fdiv_finite_not_nan s1 m1 e1 s2 m2 e2 :
  fdiv (S754_finite s1 m1 e1) (S754_finite s2 m2 e2) <> S754_nan.
Proof.
  unfold fdiv, SFdiv, SFdiv_core_binary.
  set (sh := (_ - _ - _)%Z).
  set (m' := match sh with Z.pos _ => Z.shiftl (Z.pos m1) sh | 0%Z => Z.pos m1 | Z.neg _ => 0%Z end).
  assert (Hm : (0 <= m')%Z).
  { unfold m'. destruct sh; [lia| |lia]. apply Z.shiftl_nonneg. lia. }
  pose proof (Z.div_pos m' (Z.pos m2) Hm ltac:(lia)) as Q.
  unfold Z.div in Q. destruct (Z.div_eucl m' (Z.pos m2)) as [q r].
  apply binary_round_aux_not_nan. exact Q.
Qed.

(** [round(x, 2)] of a finite float is not NaN. *)
Lemma fround2_not_nan x : is_finite x = true -> is_nan (fround2 x) = false.
Proof.
  destruct x as [s|s| |s m e]; try discriminate; intros _; [reflexivity|].
  cbn [fround2]. unfold two_places. destruct (hundredths m e); [reflexivity| |reflexivity].
  destruct (fdiv _ _) eqn:E; try reflexivity.
  exfalso. revert E. apply fdiv_finite_not_nan.
Qed.

(** The test of line 49 holds of finite prices only. *)
Lemma check_finite a b tol :
  SFltb (SFabs (fsub a b)) tol = true -> is_finite a = true /\ is_finite b = true.
Proof.
  destruct a as [sa|sa| |sa ma ea], b as [sb|sb| |sb mb eb]; cbn;
    try (intros; split; reflexivity); try discriminate.
  all: try (destruct sa; destruct sb; cbn; try discriminate; destruct tol as [|[|]| |]; discriminate).
  all: try (destruct tol as [|[|]| |]; discriminate).
Qed.

(** X5: on floats, a call that returns has accepted a finite price
    against a finite previous price, and the final price it returns is
    not NaN: it compares equal to itself. *)
Theorem float_result_finite
    (material_cost labor_cost tax_rate overhead_rate profit_margin
       commission_rate tol : float) (max_iter : Z) fp bd log :
  compute_final_price material_cost labor_cost tax_rate overhead_rate
    profit_margin commission_rate tol max_iter = (Ok (fp, bd), log) ->
  exists p q,
    next_price labor_cost overhead_rate profit_margin commission_rate
      (mul material_cost (add one tax_rate)) q = Some p /\
    fp = round2 p /\
    is_finite p = true /\ is_finite q = true /\
    is_nan fp = false /\ SFeqb fp fp = true.
Proof.
  intros E.
  destruct (resolver_terminates material_cost labor_cost tax_rate overhead_rate
              profit_margin commission_rate tol max_iter) as [_ H].
  destruct (H _ _ _ E) as (p & q & S & A & ->). clear H.
  destruct (check_finite _ _ _ A) as [Fp Fq].
  exists p, q. split; [exact S|]. split; [reflexivity|].
  split; [exact Fp|]. split; [exact Fq|].
  pose proof (fround2_not_nan _ Fp) as N. split; [exact N|].
  cbn [round2 float_number] in *. destruct (fround2 p) as [s|[|]| |[|] m e];
    try discriminate; try reflexivity.
  all: unfold SFeqb, SFcompare; rewrite Z.compare_refl, Pos.compare_cont_refl; reflexivity.
Qed.

End FloatFinite.

Section FractionMore.
Import Fraction.
Open Scope Q_scope.

Variables material_cost labor_cost : fraction.
Variables tax_rate overhead_rate profit_margin commission_rate : fraction.
Variable tol : fraction.

Local Abbreviation step := (next_price labor_cost overhead_rate profit_margin commission_rate).
Local Abbreviation loop := (for_range labor_cost overhead_rate profit_margin commission_rate tol).
Local Abbreviation start := (initial_locals material_cost labor_cost tax_rate).
Local Abbreviation k := (factor overhead_rate profit_margin commission_rate).
Local Abbreviation a := (offset labor_cost overhead_rate profit_margin).
Local Abbreviation delta := (move labor_cost overhead_rate profit_margin commission_rate).
Local Abbreviation taxed0 := (mul material_cost (add one tax_rate)).

Hypothesis margin_not_one : ~ profit_margin == 1.

Lemma step_value (taxed x np : fraction) :
  step taxed x = Some np -> np == a taxed + k * x.
Proof.
  intros E. destruct (@step_affine labor_cost overhead_rate profit_margin commission_rate
                        margin_not_one taxed x) as (np' & E' & A).
  rewrite E in E'. injection E' as <-. exact A.
Qed.

Lemma check_false (np x : fraction) :
  tol <= Qabs (np - x) -> lt (absval (sub np x)) tol = false.
Proof.
  intros H. destruct (lt (absval (sub np x)) tol) eqn:E; [|reflexivity].
  apply check_spec in E. exfalso. apply (Qlt_not_le _ _ E H).
Qed.

(** X8: in exact arithmetic, with [k] the factor and [a] the offset of
    the step and [k <> 1], the price [p] a call accepts lies within
    [|k| * tol / |1 - k|] of the fixed point [a / (1 - k)] of the step,
    and the final price within 0.005 more. *)
Theorem fraction_accuracy (max_iter : Z) fp bd log :
  ~ k == 1 ->
  compute_final_price material_cost labor_cost tax_rate overhead_rate
    profit_margin commission_rate tol max_iter = (Ok (fp, bd), log) ->
  exists p,
    fp = round2 p /\
    Qabs (p - a taxed0 / (1 - k)) * Qabs (1 - k) <= Qabs k * tol /\
    Qabs (fp - a taxed0 / (1 - k)) <= (1 # 200) + Qabs k * tol / Qabs (1 - k).
Proof.
  intros K E.
  destruct (resolver_terminates material_cost labor_cost tax_rate overhead_rate
              profit_margin commission_rate tol max_iter) as [_ H].
  destruct (H _ _ _ E) as (p & q & S & C & ->). clear H.
  apply step_value in S. apply check_spec in C.
  set (x := a taxed0 / (1 - k)) in *.
  assert (D : ~ 1 - k == 0) by (intros Z; apply K; lra).
  assert (X : (1 - k) * x == a taxed0) by (unfold x; field; exact D).
  assert (Id : (p - x) * (1 - k) == k * (q - p)).
  { rewrite S. rewrite <- X. ring. }
  assert (B : Qabs (p - x) * Qabs (1 - k) <= Qabs k * tol).
  { rewrite <- Qabs_Qmult, Id, Qabs_Qmult.
    apply Qmult_le_l_weak; [apply Qabs_nonneg|].
    rewrite Qabs_Qminus. apply Qlt_le_weak, C. }
  exists p. split; [reflexivity|]. split; [exact B|].
  assert (P1 : 0 < Qabs (1 - k)).
  { destruct (Qlt_le_dec (1 - k) 0) as [L|L].
    - rewrite Qabs_neg by lra. lra.
    - rewrite Qabs_pos by exact L.
      destruct (Qle_lt_or_eq _ _ L) as [L'|L']; [exact L'|].
      exfalso. apply D. symmetry. exact L'. }
  assert (B' : Qabs (p - x) <= Qabs k * tol / Qabs (1 - k))
    by (apply Qle_shift_div_l; assumption).
  pose proof (qround2_close p) as R.
  cbn [round2 fraction_number].
  setoid_replace (qround2 p - x) with ((qround2 p - p) + (p - x)) by ring.
  eapply Qle_trans; [apply Qabs_triangle|]. lra.
Qed.

(** Divergence: a step that does not contract keeps every test failing. *)
Lemma loop_never_accepts n :
  1 <= Qabs k ->
  forall st : locals (num := fraction),
    tol <= Qabs (delta (taxed_material st) (price st)) ->
    exists log, loop n st = (Raise ConvergenceError, log) /\ List.length log = n.
Proof.
  intros K. induction n as [|n IH]; intros st H.
  - exists []. split; reflexivity.
  - rewrite for_range_S.
    destruct (@step_affine labor_cost overhead_rate profit_margin commission_rate
                margin_not_one (taxed_material st) (price st)) as (np & E & A).
    rewrite E. cbn zeta.
    assert (Mv : np - price st == delta (taxed_material st) (price st))
      by (unfold move; rewrite A; ring).
    rewrite check_false by (rewrite Mv; exact H).
    destruct (IH (after_pass labor_cost overhead_rate profit_margin commission_rate st np))
      as (log & R & L).
    + cbn [taxed_material price after_pass].
      rewrite (@move_step labor_cost overhead_rate profit_margin commission_rate _ _ _ A).
      rewrite Qabs_Qmult.
      pose proof (Qabs_nonneg (delta (taxed_material st) (price st))). nra.
    + rewrite R. eexists. split; [reflexivity|]. cbn. now rewrite L.
Qed.

(** X9: in exact arithmetic, when the step does not contract
    ([|k| >= 1]) and the first step already moves the price by [tol] or
    more, every test fails: the call raises the ConvergenceError after
    [max_iter] tests, whatever the budget. *)
Theorem fraction_never_converges (max_iter : Z) :
  1 <= Qabs k ->
  tol <= Qabs (delta (taxed_material start) (price start)) ->
  exists log,
    compute_final_price material_cost labor_cost tax_rate overhead_rate
      profit_margin commission_rate tol max_iter = (Raise ConvergenceError, log) /\
    List.length log = range_length max_iter.
Proof.
  intros K H. rewrite compute_final_price_unfold.
  destruct (loop_never_accepts (range_length max_iter) K start H) as (log & R & L).
  rewrite R. now exists log.
Qed.

(** X10: in exact arithmetic, when [profit_margin * commission_rate]
    is 0, the margin is not 1, the tolerance is positive and the budget
    is at least 2, the call returns after at most two tests, and the
    price it rounds is [(taxed_material + labor_cost) * (1 +
    overhead_rate) / (1 - profit_margin)]. *)
Theorem fraction_zero_commission (max_iter : Z) :
  profit_margin * commission_rate == 0 ->
  0 < tol ->
  (2 <= max_iter)%Z ->
  exists fp bd log p,
    compute_final_price material_cost labor_cost tax_rate overhead_rate
      profit_margin commission_rate tol max_iter = (Ok (fp, bd), log) /\
    (List.length log <= 2)%nat /\
    fp = round2 p /\
    p == (taxed0 + labor_cost) * (1 + overhead_rate) / (1 - profit_margin).
Proof.
  intros Z T H.
  assert (D : ~ 1 - profit_margin == 0) by (intros E; apply margin_not_one; lra).
  assert (K0 : k == 0).
  { unfold factor. setoid_replace (profit_margin * commission_rate * (1 + overhead_rate) / (1 - profit_margin))
      with ((profit_margin * commission_rate) * ((1 + overhead_rate) / (1 - profit_margin)))
      by (field; exact D).
    rewrite Z. ring. }
  assert (KA : Qabs k == 0) by (rewrite K0; reflexivity).
  destruct (@loop_converges labor_cost overhead_rate profit_margin commission_rate tol
              margin_not_one ltac:(rewrite KA; discriminate) 1%nat (range_length max_iter) start)
    as (st & log & np & R & L & _ & _).
  - unfold range_length. lia.
  - cbn [qpow]. rewrite KA. lra.
  - rewrite compute_final_price_unfold, R.
    destruct (for_range_ok _ _ _ _ _ _ _ R) as (Tx & q & log' & [A1 _ _ _] & _).
    do 2 eexists. exists log, (price st).
    split; [reflexivity|]. split; [exact L|]. split; [reflexivity|].
    apply step_value in A1. rewrite A1, K0, Tx. unfold offset.
    cbn [taxed_material initial_locals]. ring.
Qed.

End FractionMore.

Section Orbit.
Context {num : Type} {NUM : PyNumber num}.
Variables material_cost labor_cost : num.
Variables tax_rate overhead_rate profit_margin commission_rate : num.
Variable tol : num.
Local Abbreviation step := (next_price labor_cost overhead_rate profit_margin commission_rate).
Local Abbreviation loop := (for_range labor_cost overhead_rate profit_margin commission_rate tol).
Local Abbreviation start := (initial_locals material_cost labor_cost tax_rate).
Local Abbreviation after := (after_pass labor_cost overhead_rate profit_margin commission_rate).

(** A log whose tests follow the prices that the step makes one of the
    other, from the price [x] on. *)
Inductive orbit (taxed : num) : num -> list (event (num := num)) -> Prop :=
| orbit_end x : orbit taxed x []
| orbit_pass x np log :
    step taxed x = Some np ->
    orbit taxed np log ->
    orbit taxed x (ToleranceCheck np x (lt (absval (sub np x)) tol) :: log).

Lemma for_range_orbit n :
  forall st, orbit (taxed_material st) (price st) (snd (loop n st)).
Proof.
  induction n as [|n IH]; intros st; [constructor|].
  rewrite for_range_S. destruct (step _ _) as [np|] eqn:E; [|constructor].
  cbn zeta. destruct (lt _ _) eqn:L.
  - cbn [snd]. rewrite <- L. constructor; [exact E|constructor].
  - specialize (IH (after st np)). destruct (loop n (after st np)) as [r l].
    cbn [snd] in *. rewrite <- L. constructor; [exact E|exact IH].
Qed.

(** X11: the log of a call is the orbit of the step from the first
    guess [taxed_material + labor_cost]: each test compares the price its
    pass started from with the price the step made of it, records
    whether they are closer than [tol], and the next pass starts from
    that new price. *)
Theorem log_is_orbit (max_iter : Z) :
  orbit (mul material_cost (add one tax_rate))
        (add (mul material_cost (add one tax_rate)) labor_cost)
        (snd (compute_final_price material_cost labor_cost tax_rate overhead_rate
                profit_margin commission_rate tol max_iter)).
Proof.
  rewrite compute_final_price_log. exact (for_range_orbit (range_length max_iter) start).
Qed.
End Orbit.

Section TaxedMaterial.

Context {num : Type} {NUM : PyNumber num}.

Variables material_cost labor_cost : num.
Variables tax_rate overhead_rate profit_margin commission_rate : num.
Variable tol : num.

Local Abbreviation loop := (for_range labor_cost overhead_rate profit_margin commission_rate tol).
Local Abbreviation traced := (for_range_traced labor_cost overhead_rate profit_margin commission_rate tol).
Local Abbreviation start := (initial_locals material_cost labor_cost tax_rate).

(** Dropping the assignments from the record of the loop leaves the run
    of the loop. *)
Lemma for_range_traced_erase n :
  forall st, (fst (traced n st), tests_of (snd (traced n st))) = loop n st.
Proof.
  induction n as [|n IH]; intros st; [reflexivity|].
  rewrite for_range_S. cbn [for_range_traced].
  destruct (next_price _ _ _ _ _ _) as [np|]; [|reflexivity].
  cbn zeta. destruct (lt _ _); [reflexivity|].
  specialize (IH (after_pass labor_cost overhead_rate profit_margin commission_rate st np)).
  destruct (traced n _) as [r l]. destruct (loop n _) as [r' l'].
  cbn [fst snd] in *. injection IH as <- <-.
  unfold tests_of. rewrite !flat_map_app. reflexivity.
Qed.

(** The loop assigns [taxed_material] nowhere. *)
Lemma for_range_traced_keeps_taxed_material n :
  forall st,
    Forall (fun ev => forall v, ev <> Assigned "taxed_material" v) (snd (traced n st)).
Proof.
  assert (C : forall c : costs,
             Forall (fun ev => forall v : num, ev <> Assigned "taxed_material" v)
                    (cost_assignments c)).
  { intros c. repeat constructor; intros v; discriminate. }
  induction n as [|n IH]; intros st; [constructor|].
  cbn [for_range_traced]. destruct (next_price _ _ _ _ _ _) as [np|]; [|apply C].
  cbn zeta.
  assert (H : Forall (fun ev => forall v : num, ev <> Assigned "taxed_material" v)
                (cost_assignments
                   (assign_costs labor_cost overhead_rate profit_margin commission_rate
                      (taxed_material st) (price st))
                 ++ [Assigned "new_price" np;
                     Tested np (price st) (lt (absval (sub np (price st))) tol);
                     Assigned "price" np])).
  { apply Forall_app. split; [apply C|]. repeat constructor; intros v; discriminate. }
  destruct (lt _ _); [exact H|].
  specialize (IH (after_pass labor_cost overhead_rate profit_margin commission_rate st np)).
  destruct (traced n _) as [r l]. cbn [snd] in *.
  apply Forall_app. split; assumption.
Qed.

(** ** C8 *)

(** C8: in the record of the assignments that a call executes, which
    without the assignments is the run of [compute_final_price] itself,
    the first entry is [taxed_material = material_cost * (1 + tax_rate)]
    (line 39), the second is the first guess [price = taxed_material +
    labor_cost] (line 40), and [taxed_material] is assigned nowhere after
    that, in no pass of the loop: it is computed once, before the loop,
    and keeps its value.  Accordingly every tolerance test of the call
    compares a price with the price that the step makes of it with that
    one [taxed_material], starting from the first guess. *)
Theorem C8_taxed_material_assigned_once (max_iter : Z) :
  let taxed := mul material_cost (add one tax_rate) in
  let run := compute_final_price_traced material_cost labor_cost tax_rate
               overhead_rate profit_margin commission_rate tol max_iter in
  (fst run, tests_of (snd run))
  = compute_final_price material_cost labor_cost tax_rate overhead_rate
      profit_margin commission_rate tol max_iter /\
  (exists rest,
      snd run
      = Assigned "taxed_material" taxed :: Assigned "price" (add taxed labor_cost) :: rest /\
      Forall (fun ev => forall v, ev <> Assigned "taxed_material" v) rest) /\
  orbit labor_cost overhead_rate profit_margin commission_rate tol
    taxed (add taxed labor_cost)
    (snd (compute_final_price material_cost labor_cost tax_rate overhead_rate
            profit_margin commission_rate tol max_iter)).
Proof.
  cbn zeta. split; [|split].
  - rewrite compute_final_price_unfold. unfold compute_final_price_traced.
    fold start.
    pose proof (for_range_traced_erase (range_length max_iter) start) as E.
    destruct (traced _ _) as [[st|e] l]; destruct (loop _ _) as [r' l'];
      cbn [fst snd] in *; injection E as <- <-.
    + cbn [fst snd app]. unfold tests_of. cbn [flat_map app].
      rewrite flat_map_app. cbn [flat_map cost_assignments app].
      rewrite app_nil_r. reflexivity.
    + reflexivity.
  - unfold compute_final_price_traced. fold start.
    pose proof (for_range_traced_keeps_taxed_material (range_length max_iter) start) as F.
    destruct (traced _ _) as [[st|e] l]; cbn [snd app] in *.
    + eexists. split; [reflexivity|]. apply Forall_app. split; [exact F|].
      repeat constructor; intros v; discriminate.
    + eexists. split; [reflexivity|]. exact F.
  - rewrite compute_final_price_log.
    exact (for_range_orbit labor_cost overhead_rate profit_margin commission_rate tol
             (range_length max_iter) start).
Qed.

End TaxedMaterial.

Section FractionBreakdown.
Import Fraction.
Open Scope Q_scope.

Variables material_cost labor_cost : fraction.
Variables tax_rate overhead_rate profit_margin commission_rate : fraction.
Variable tol : fraction.
Local Abbreviation step := (next_price labor_cost overhead_rate profit_margin commission_rate).
Local Abbreviation k := (factor overhead_rate profit_margin commission_rate).
Local Abbreviation a := (offset labor_cost overhead_rate profit_margin).
Local Abbreviation taxed0 := (mul material_cost (add one tax_rate)).

Lemma qround2_nonneg (x : fraction) : 0 <= x -> 0 <= qround2 x.
Proof.
  intros H. unfold qround2. rewrite Qred_correct.
  destruct x as [n d]. unfold Qle in *. cbn [Qnum Qden] in *.
  pose proof (@round_half_even_nonneg (100 * n) (Z.pos d) ltac:(lia) ltac:(lia)). lia.
Qed.

(** What a successful call on fractions returns, entry by entry. *)
Lemma fraction_breakdown (max_iter : Z) fp bd log :
  compute_final_price material_cost labor_cost tax_rate overhead_rate
    profit_margin commission_rate tol max_iter = (Ok (fp, bd), log) ->
  exists p q,
    step taxed0 q = Some p /\
    Qabs (p - q) < tol /\
    fp = qround2 p /\
    bd = make_breakdown material_cost labor_cost taxed0 p
           (assign_costs labor_cost overhead_rate profit_margin commission_rate taxed0 p).
Proof.
  rewrite compute_final_price_unfold.
  destruct (for_range _ _ _ _ _ _ _) as [[st|e] l] eqn:R; [|discriminate].
  intros [= <- <- <-].
  destruct (for_range_ok _ _ _ _ _ _ _ R) as (T & q & log' & [A1 A2 _ _] & _).
  cbn [taxed_material initial_locals] in T.
  exists (price st), q. rewrite T in *. apply check_spec in A2. auto.
Qed.

(** X12: in exact arithmetic the rounded entries of a returned
    breakdown add up to within the rounding of their parts: "Labor
    Total" is within 0.015 of "Labor Base" + "Commission", "Total Cost"
    within 0.02 of "Material Taxed" + "Labor Total" + "Overhead", and the
    final price within [0.015 + |(1 - profit_margin) * k| * tol] of
    "Total Cost" + "Profit", [k] being the factor of the step. *)
Theorem rounded_components_nearly_add_up (max_iter : Z) fp bd log :
  ~ profit_margin == 1 ->
  compute_final_price material_cost labor_cost tax_rate overhead_rate
    profit_margin commission_rate tol max_iter = (Ok (fp, bd), log) ->
  exists mt lb co lt ov tc pr,
    get "Material Taxed" bd = Some mt /\ get "Labor Base" bd = Some lb /\
    get "Commission" bd = Some co /\ get "Labor Total" bd = Some lt /\
    get "Overhead" bd = Some ov /\ get "Total Cost" bd = Some tc /\
    get "Profit" bd = Some pr /\
    Qabs (lt - (lb + co)) <= 3 # 200 /\
    Qabs (tc - (mt + lt + ov)) <= 4 # 200 /\
    Qabs (fp - (tc + pr)) <= (3 # 200) + Qabs ((1 - profit_margin) * k) * tol.
Proof.
  intros M E. destruct (fraction_breakdown _ E) as (p & q & S & C & -> & ->).
  clear E. set (t0 := taxed0) in *.
  do 7 eexists. do 7 (split; [reflexivity|]).
  cbn [assign_costs commission total_labor overhead total_cost profit base_cost
       round2 add mul fraction_number].
  set (pr := qmul p profit_margin).
  set (co := qmul pr commission_rate).
  set (tl := qadd labor_cost co).
  set (bc := qadd t0 tl).
  set (ov := qmul bc overhead_rate).
  set (tc := qadd bc ov).
  assert (Etl : tl == labor_cost + co) by (unfold tl, qadd; apply Qred_correct).
  assert (Ebc : bc == t0 + tl) by (unfold bc, qadd; apply Qred_correct).
  assert (Etc : tc == bc + ov) by (unfold tc, qadd; apply Qred_correct).
  assert (Epr : pr == p * profit_margin) by (unfold pr, qmul; apply Qred_correct).
  pose proof (qround2_close labor_cost) as R1. pose proof (qround2_close co) as R2.
  pose proof (qround2_close tl) as R3. pose proof (qround2_close t0) as R4.
  pose proof (qround2_close ov) as R5. pose proof (qround2_close tc) as R6.
  pose proof (qround2_close pr) as R7. pose proof (qround2_close p) as R8.
  apply Qabs_Qle_condition in R1, R2, R3, R4, R5, R6, R7, R8.
  set (r1 := qround2 labor_cost) in *. set (r2 := qround2 co) in *.
  set (r3 := qround2 tl) in *. set (r4 := qround2 t0) in *.
  set (r5 := qround2 ov) in *. set (r6 := qround2 tc) in *.
  set (r7 := qround2 pr) in *. set (r8 := qround2 p) in *.
  split; [|split].
  - clearbody r1 r2 r3 r4 r5 r6 r7 r8 pr co tl bc ov tc. apply Qabs_Qle_condition. split; lra.
  - clearbody r1 r2 r3 r4 r5 r6 r7 r8 pr co tl bc ov tc. apply Qabs_Qle_condition. split; lra.
  - (* the price equation *)
    destruct (@step_affine labor_cost overhead_rate profit_margin commission_rate M t0 q)
      as (p' & Eq & Aq).
    rewrite S in Eq. injection Eq as <-.
    assert (D : ~ 1 - profit_margin == 0) by (intros Z; apply M; lra).
    assert (Eco : co == pr * commission_rate) by (unfold co, qmul; apply Qred_correct).
    assert (Eov : ov == bc * overhead_rate) by (unfold ov, qmul; apply Qred_correct).
    assert (Tc : tc == (1 - profit_margin) * (a t0 + k * p)).
    { rewrite Etc, Eov, Ebc, Etl, Eco, Epr. unfold offset, factor. field. exact D. }
    assert (Id : p - (tc + pr) == (1 - profit_margin) * k * (q - p)).
    { assert (Pz : p - (a t0 + k * p) == k * (q - p)) by (rewrite Aq at 1; ring).
      rewrite Tc, Epr.
      setoid_replace (p - ((1 - profit_margin) * (a t0 + k * p) + p * profit_margin))
        with ((1 - profit_margin) * (p - (a t0 + k * p))) by ring.
      rewrite Pz. ring. }
    assert (B : Qabs (p - (tc + pr)) <= Qabs ((1 - profit_margin) * k) * tol).
    { rewrite Id, Qabs_Qmult. apply Qmult_le_l_weak; [apply Qabs_nonneg|].
      rewrite Qabs_Qminus. apply Qlt_le_weak, C. }
    apply Qabs_Qle_condition in B.
    clear Id Tc. clearbody r1 r2 r3 r4 r5 r6 r7 r8 pr co tl bc ov tc.
    set (bound := Qabs ((1 - profit_margin) * k) * tol) in *. clearbody bound.
    apply Qabs_Qle_condition. split; lra.
Qed.

End FractionBreakdown.

Section FractionSigns.
Import Fraction.
Open Scope Q_scope.

Variables material_cost labor_cost : fraction.
Variables tax_rate overhead_rate profit_margin commission_rate : fraction.
Variable tol : fraction.
Local Abbreviation step := (next_price labor_cost overhead_rate profit_margin commission_rate).
Local Abbreviation loop := (for_range labor_cost overhead_rate profit_margin commission_rate tol).
Local Abbreviation start := (initial_locals material_cost labor_cost tax_rate).
Local Abbreviation k := (factor overhead_rate profit_margin commission_rate).
Local Abbreviation a := (offset labor_cost overhead_rate profit_margin).
Local Abbreviation taxed0 := (mul material_cost (add one tax_rate)).

Hypothesis material_nonneg : 0 <= material_cost.
Hypothesis labor_nonneg : 0 <= labor_cost.
Hypothesis tax_nonneg : 0 <= tax_rate.
Hypothesis overhead_nonneg : 0 <= overhead_rate.
Hypothesis commission_nonneg : 0 <= commission_rate.
Hypothesis margin_nonneg : 0 <= profit_margin.
Hypothesis margin_below_one : profit_margin < 1.

Lemma taxed0_value : taxed0 == material_cost * (1 + tax_rate).
Proof.
  cbn [mul add one fraction_number]. unfold qmul, qadd. now rewrite !Qred_correct.
Qed.

Lemma factor_nonneg : 0 <= k.
Proof.
  unfold factor. apply Qle_shift_div_l; [lra|].
  assert (0 <= profit_margin * commission_rate) by (apply Qmult_le_0_compat; assumption).
  assert (0 <= profit_margin * commission_rate * (1 + overhead_rate))
    by (apply Qmult_le_0_compat; [assumption|lra]).
  lra.
Qed.

Lemma offset_above_cost (taxed : fraction) :
  0 <= taxed -> taxed + labor_cost <= a taxed.
Proof.
  intros T. unfold offset. apply Qle_shift_div_l; [lra|].
  assert (0 <= (taxed + labor_cost) * (profit_margin + overhead_rate))
    by (apply Qmult_le_0_compat; lra).
  lra.
Qed.

Lemma loop_keeps_prices_above_cost n :
  forall (st st' : locals (num := fraction)) log,
    0 <= taxed_material st ->
    0 <= price st ->
    loop n st = (Ok st', log) ->
    taxed_material st + labor_cost <= price st'.
Proof.
  assert (M : ~ profit_margin == 1) by lra.
  pose proof factor_nonneg as K.
  induction n as [|n IH]; intros st st' log T P; [discriminate|].
  rewrite for_range_S.
  destruct (@step_affine labor_cost overhead_rate profit_margin commission_rate M
              (taxed_material st) (price st)) as (np & E & A).
  rewrite E. cbn zeta.
  pose proof (offset_above_cost T) as O.
  assert (N : taxed_material st + labor_cost <= np).
  { rewrite A. assert (0 <= k * price st) by (apply Qmult_le_0_compat; assumption). lra. }
  destruct (lt _ _).
  - intros [= <- _]. exact N.
  - destruct (loop n _) as [r l] eqn:R. intros [= -> _].
    assert (P' : 0 <= np) by lra.
    exact (IH (after_pass labor_cost overhead_rate profit_margin commission_rate st np)
              st' l T P' R).
Qed.

(** X13: in exact arithmetic, with costs and rates that are not
    negative and a profit margin in [0, 1), a call that returns has
    accepted a price of at least the taxed material plus the labor cost,
    and neither the final price nor any entry of the breakdown is
    negative. *)
Theorem nonnegative_inputs_nonnegative_amounts (max_iter : Z) fp bd log :
  compute_final_price material_cost labor_cost tax_rate overhead_rate
    profit_margin commission_rate tol max_iter = (Ok (fp, bd), log) ->
  exists p,
    fp = round2 p /\
    material_cost * (1 + tax_rate) + labor_cost <= p /\
    0 <= fp /\
    Forall (fun entry => 0 <= snd entry) bd.
Proof.
  intros E. pose proof taxed0_value as TV.
  assert (T0 : 0 <= taxed0).
  { rewrite TV. apply Qmult_le_0_compat; lra. }
  rewrite compute_final_price_unfold in E.
  destruct (loop _ _) as [[st|e] l] eqn:R; [|discriminate].
  injection E as <- <- <-.
  destruct (for_range_ok _ _ _ _ _ _ _ R) as (Tx & _).
  cbn [taxed_material initial_locals] in Tx.
  assert (P00 : 0 <= price start).
  { cbn [price initial_locals]. set (t0 := taxed0) in *.
    cbn [add fraction_number]. unfold qadd. rewrite Qred_correct. lra. }
  pose proof (@loop_keeps_prices_above_cost _ start st l T0 P00 R) as P.
  cbn [taxed_material initial_locals] in P. rewrite TV in P.
  exists (price st). split; [reflexivity|]. split; [exact P|].
  assert (P0 : 0 <= price st).
  { assert (0 <= material_cost * (1 + tax_rate)) by (apply Qmult_le_0_compat; lra). lra. }
  split; [apply qround2_nonneg, P0|].
  rewrite Tx.
  cbn [assign_costs commission total_labor overhead total_cost profit base_cost].
  cbn [round2 fraction_number].
  set (t0 := taxed0) in *.
  assert (Npr : 0 <= mul (price st) profit_margin).
  { cbn [mul fraction_number]. unfold qmul. rewrite Qred_correct.
    apply Qmult_le_0_compat; assumption. }
  assert (Nco : 0 <= mul (mul (price st) profit_margin) commission_rate).
  { cbn [mul fraction_number] in *. unfold qmul at 1. rewrite Qred_correct.
    apply Qmult_le_0_compat; assumption. }
  assert (Ntl : 0 <= add labor_cost (mul (mul (price st) profit_margin) commission_rate)).
  { cbn [add fraction_number] in *. unfold qadd. rewrite Qred_correct. lra. }
  assert (Nbc : 0 <= add t0 (add labor_cost (mul (mul (price st) profit_margin) commission_rate))).
  { cbn [add fraction_number] in *. unfold qadd at 1. rewrite Qred_correct. lra. }
  assert (Nov : 0 <= mul (add t0 (add labor_cost (mul (mul (price st) profit_margin) commission_rate))) overhead_rate).
  { cbn [mul fraction_number] in *. unfold qmul at 1. rewrite Qred_correct.
    apply Qmult_le_0_compat; assumption. }
  assert (Ntc : 0 <= add (add t0 (add labor_cost (mul (mul (price st) profit_margin) commission_rate)))
                         (mul (add t0 (add labor_cost (mul (mul (price st) profit_margin) commission_rate))) overhead_rate)).
  { cbn [add fraction_number] in *. unfold qadd at 1. rewrite Qred_correct. lra. }
  unfold make_breakdown.
  repeat (apply Forall_cons; [cbn [snd]; apply qround2_nonneg; assumption|]).
  apply Forall_nil.
Qed.

End FractionSigns.

(** * The further properties at concrete inputs *)

Section FloatInstances.

Import Float64 Shipped.

(** Scenario A is accepted on its 11th pass: a budget of 11 suffices,
    and so does the default of 1000. *)
Lemma larger_budget_same_result_witness :
  compute_final_price (of_Z 3200) (of_Z 1600) TAX_RATE OVERHEAD_RATE
    PROFIT_MARGIN COMMISSION_RATE TOL 1000
  = (Ok (decimal 1224023 2,
         match fst scenario_A_outcome with Ok r => snd r | Raise _ => [] end),
     snd scenario_A_outcome).
Proof.
  apply (@larger_budget_same_result float float_number (of_Z 3200) (of_Z 1600)
           TAX_RATE OVERHEAD_RATE PROFIT_MARGIN COMMISSION_RATE TOL 11 1000).
  - lia.
  - vm_compute. reflexivity.
Defined.

Lemma no_budget_no_test_witness :
  compute_final_price (of_Z 3200) (of_Z 1600) TAX_RATE OVERHEAD_RATE
    PROFIT_MARGIN COMMISSION_RATE TOL (-3)
  = (Raise ConvergenceError, []).
Proof.
  apply (@no_budget_no_test float float_number (of_Z 3200) (of_Z 1600)
           TAX_RATE OVERHEAD_RATE PROFIT_MARGIN COMMISSION_RATE TOL (-3)).
  lia.
Defined.

(** A profit margin of 1.0. *)
Lemma float_zero_division_witness :
  fst (compute_final_price (of_Z 3200) (of_Z 1600) TAX_RATE OVERHEAD_RATE
         (of_Z 1) COMMISSION_RATE TOL MAX_ITER) = Raise ZeroDivisionError.
Proof.
  apply (proj2 (float_zero_division (of_Z 3200) (of_Z 1600) TAX_RATE OVERHEAD_RATE
                  (of_Z 1) COMMISSION_RATE TOL MAX_ITER)).
  split; [reflexivity|]. unfold MAX_ITER. lia.
Defined.

Lemma float_result_finite_witness :
  exists p q,
    next_price (of_Z 1600) OVERHEAD_RATE PROFIT_MARGIN COMMISSION_RATE
      (mul (of_Z 3200) (add one TAX_RATE)) q = Some p /\
    decimal 1224023 2 = round2 p /\
    is_finite p = true /\ is_finite q = true /\
    is_nan (decimal 1224023 2) = false /\
    SFeqb (decimal 1224023 2) (decimal 1224023 2) = true.
Proof.
  apply (@float_result_finite (of_Z 3200) (of_Z 1600) TAX_RATE OVERHEAD_RATE
           PROFIT_MARGIN COMMISSION_RATE TOL MAX_ITER (decimal 1224023 2)
           (match fst scenario_A_outcome with Ok r => snd r | Raise _ => [] end)
           (snd scenario_A_outcome)).
  vm_compute. reflexivity.
Defined.

End FloatInstances.

Section FractionInstances.

Import Fraction.
Open Scope Q_scope.

(** Scenario A on fractions. *)
Definition scenario_A_exact : M (fraction * breakdown) :=
  Eval vm_compute in
    compute_final_price (3200 # 1) (1600 # 1) (913 # 10000) (6666 # 10000)
      (23 # 100) (20 # 100) (1 # 1000000) 1000.

Lemma fraction_accuracy_witness :
  exists p,
    (1224023 # 100) = round2 p /\
    Qabs (p - offset (1600 # 1) (6666 # 10000) (23 # 100)
                (mul (3200 # 1) (add one (913 # 10000)))
              / (1 - factor (6666 # 10000) (23 # 100) (20 # 100)))
    * Qabs (1 - factor (6666 # 10000) (23 # 100) (20 # 100))
    <= Qabs (factor (6666 # 10000) (23 # 100) (20 # 100)) * (1 # 1000000) /\
    Qabs ((1224023 # 100)
          - offset (1600 # 1) (6666 # 10000) (23 # 100)
              (mul (3200 # 1) (add one (913 # 10000)))
            / (1 - factor (6666 # 10000) (23 # 100) (20 # 100)))
    <= (1 # 200)
       + Qabs (factor (6666 # 10000) (23 # 100) (20 # 100)) * (1 # 1000000)
         / Qabs (1 - factor (6666 # 10000) (23 # 100) (20 # 100)).
Proof.
  apply (@fraction_accuracy (3200 # 1) (1600 # 1) (913 # 10000) (6666 # 10000)
           (23 # 100) (20 # 100) (1 # 1000000)
           ltac:(vm_compute; discriminate) 1000 (1224023 # 100)
           (match fst scenario_A_exact with Ok r => snd r | Raise _ => [] end)
           (snd scenario_A_exact)).
  - vm_compute. discriminate.
  - vm_compute. reflexivity.
Defined.

(** A margin of 1/2 with a commission rate of 1 and no overhead: the
    factor is 1 and every step adds 2. *)
Lemma fraction_never_converges_witness :
  exists log,
    compute_final_price 0 1 0 0 (1 # 2) 1 (1 # 1000000) 50
    = (Raise ConvergenceError, log) /\
    List.length log = range_length 50.
Proof.
  apply (@fraction_never_converges 0 1 0 0 (1 # 2) 1 (1 # 1000000)
           ltac:(vm_compute; discriminate) 50).
  - vm_compute. discriminate.
  - vm_compute. discriminate.
Defined.

Lemma fraction_zero_commission_witness :
  exists fp bd log p,
    compute_final_price (3200 # 1) (1600 # 1) (913 # 10000) (6666 # 10000)
      0 (20 # 100) (1 # 1000000) 2 = (Ok (fp, bd), log) /\
    (List.length log <= 2)%nat /\
    fp = round2 p /\
    p == (mul (3200 # 1) (add one (913 # 10000)) + (1600 # 1))
         * (1 + (6666 # 10000)) / (1 - 0).
Proof.
  apply (@fraction_zero_commission (3200 # 1) (1600 # 1) (913 # 10000) (6666 # 10000)
           0 (20 # 100) (1 # 1000000) ltac:(vm_compute; discriminate) 2).
  - reflexivity.
  - reflexivity.
  - lia.
Defined.

Lemma rounded_components_nearly_add_up_witness :
  exists mt lb co lt ov tc pr,
    get "Material Taxed" (match fst scenario_A_exact with Ok r => snd r | Raise _ => [] end)
    = Some mt /\
    get "Labor Base" (match fst scenario_A_exact with Ok r => snd r | Raise _ => [] end)
    = Some lb /\
    get "Commission" (match fst scenario_A_exact with Ok r => snd r | Raise _ => [] end)
    = Some co /\
    get "Labor Total" (match fst scenario_A_exact with Ok r => snd r | Raise _ => [] end)
    = Some lt /\
    get "Overhead" (match fst scenario_A_exact with Ok r => snd r | Raise _ => [] end)
    = Some ov /\
    get "Total Cost" (match fst scenario_A_exact with Ok r => snd r | Raise _ => [] end)
    = Some tc /\
    get "Profit" (match fst scenario_A_exact with Ok r => snd r | Raise _ => [] end)
    = Some pr /\
    Qabs (lt - (lb + co)) <= 3 # 200 /\
    Qabs (tc - (mt + lt + ov)) <= 4 # 200 /\
    Qabs ((1224023 # 100) - (tc + pr))
    <= (3 # 200)
       + Qabs ((1 - (23 # 100)) * factor (6666 # 10000) (23 # 100) (20 # 100))
         * (1 # 1000000).
Proof.
  apply (@rounded_components_nearly_add_up (3200 # 1) (1600 # 1) (913 # 10000)
           (6666 # 10000) (23 # 100) (20 # 100) (1 # 1000000) 1000 (1224023 # 100)
           (match fst scenario_A_exact with Ok r => snd r | Raise _ => [] end)
           (snd scenario_A_exact)).
  - vm_compute. discriminate.
  - vm_compute. reflexivity.
Defined.

Lemma nonnegative_inputs_nonnegative_amounts_witness :
  exists p,
    (1224023 # 100) = round2 p /\
    (3200 # 1) * (1 + (913 # 10000)) + (1600 # 1) <= p /\
    0 <= (1224023 # 100) /\
    Forall (fun entry => 0 <= snd entry)
      (match fst scenario_A_exact with Ok r => snd r | Raise _ => [] end).
Proof.
  apply (@nonnegative_inputs_nonnegative_amounts (3200 # 1) (1600 # 1) (913 # 10000)
           (6666 # 10000) (23 # 100) (20 # 100) (1 # 1000000)
           ltac:(vm_compute; discriminate) ltac:(vm_compute; discriminate)
           ltac:(vm_compute; discriminate) ltac:(vm_compute; discriminate)
           ltac:(vm_compute; discriminate) ltac:(vm_compute; discriminate)
           ltac:(reflexivity) 1000 (1224023 # 100)
           (match fst scenario_A_exact with Ok r => snd r | Raise _ => [] end)
           (snd scenario_A_exact)).
  vm_compute. reflexivity.
Defined.

End FractionInstances.
